(** * DbEncryptToolFHE: the batch / decryption-oracle controller

    A shallow embedding of the Solidity contract [DbEncryptToolFHE]
    (pragma ^0.8.24) and the properties of its access control, batch
    lifecycle, cooldown throttling and decryption request / callback
    protocol.

    Conventions of the embedding:
    - [uint256], [address], [bytes32] and the [euint32] handle (a user-defined
      value type over [bytes32]) are [Z]; arithmetic on [uint256] is the
      checked arithmetic of Solidity 0.8: an overflow reverts with
      [Panic 0x11];
    - a Solidity [mapping] is a [gmap] read with the zero value of its value
      type as default;
    - a function body is a computation in a state-and-error monad over the
      contract storage, the event log of the contract and the requests sent
      to the decryption oracle; the state carried by an error is
      the storage at the point of the [revert].  [transact] is the
      transaction boundary of the EVM: a reverted call leaves the storage it
      started from;
    - [msg.sender], [block.timestamp] and what the external decryption oracle
      answers are given per transaction; [keccak256], [FHE.toBytes32],
      [FHE.checkSignatures] and [address(this)] are parameters (class
      [Host]);
    - the internal helpers [_initIfNeeded] and [_requireInitialized] are
      called by no function of the contract and are left out. *)

From Stdlib Require Import ZArith List Lia Bool.
From Stdlib Require Import Init.Byte.
From stdpp Require Import base option gmap list.

Import ListNotations.
Local Open Scope Z_scope.

(** ** Value types *)

Abbreviation uint256 := Z (only parsing).
Abbreviation uint32 := Z (only parsing).
Abbreviation address := Z (only parsing).
Abbreviation bytes32 := Z (only parsing).
Abbreviation euint32 := Z (only parsing).

Definition MAX_UINT256 : Z := 2 ^ 256 - 1.

(** Reading a [mapping]: an absent key reads as the zero value [d]. *)
Definition mget {V : Type} (d : V) (m : gmap Z V) (k : Z) : V :=
  default d (m !! k).

(** ** Storage *)

Record DecryptionContext : Type := MkContext {
  batchId : uint256;
  stateHash : bytes32;
  processed : bool
}.

Definition zeroContext : DecryptionContext :=
  {| batchId := 0; stateHash := 0; processed := false |}.

Record State : Type := MkState {
  owner : address;
  isProvider : gmap Z bool;
  paused : bool;
  cooldownSeconds : uint256;
  lastSubmissionTime : gmap Z Z;
  lastDecryptionRequestTime : gmap Z Z;
  currentBatchId : uint256;
  batchClosed : gmap Z bool;
  decryptionContexts : gmap Z DecryptionContext;
  encryptedData : gmap Z Z
}.

(** Storage before the constructor runs: every slot is zero. *)
Definition zeroState : State :=
  {| owner := 0; isProvider := ∅; paused := false; cooldownSeconds := 0;
     lastSubmissionTime := ∅; lastDecryptionRequestTime := ∅;
     currentBatchId := 0; batchClosed := ∅; decryptionContexts := ∅;
     encryptedData := ∅ |}.

Definition set_owner (v : address) (s : State) : State :=
  MkState v (isProvider s) (paused s) (cooldownSeconds s)
    (lastSubmissionTime s) (lastDecryptionRequestTime s) (currentBatchId s)
    (batchClosed s) (decryptionContexts s) (encryptedData s).

Definition set_isProvider (k : address) (v : bool) (s : State) : State :=
  MkState (owner s) (<[k := v]> (isProvider s)) (paused s) (cooldownSeconds s)
    (lastSubmissionTime s) (lastDecryptionRequestTime s) (currentBatchId s)
    (batchClosed s) (decryptionContexts s) (encryptedData s).

Definition set_paused (v : bool) (s : State) : State :=
  MkState (owner s) (isProvider s) v (cooldownSeconds s)
    (lastSubmissionTime s) (lastDecryptionRequestTime s) (currentBatchId s)
    (batchClosed s) (decryptionContexts s) (encryptedData s).

Definition set_cooldownSeconds (v : uint256) (s : State) : State :=
  MkState (owner s) (isProvider s) (paused s) v
    (lastSubmissionTime s) (lastDecryptionRequestTime s) (currentBatchId s)
    (batchClosed s) (decryptionContexts s) (encryptedData s).

Definition set_lastSubmissionTime (k : address) (v : uint256) (s : State) : State :=
  MkState (owner s) (isProvider s) (paused s) (cooldownSeconds s)
    (<[k := v]> (lastSubmissionTime s)) (lastDecryptionRequestTime s)
    (currentBatchId s) (batchClosed s) (decryptionContexts s) (encryptedData s).

Definition set_lastDecryptionRequestTime (k : address) (v : uint256) (s : State) : State :=
  MkState (owner s) (isProvider s) (paused s) (cooldownSeconds s)
    (lastSubmissionTime s) (<[k := v]> (lastDecryptionRequestTime s))
    (currentBatchId s) (batchClosed s) (decryptionContexts s) (encryptedData s).

Definition set_currentBatchId (v : uint256) (s : State) : State :=
  MkState (owner s) (isProvider s) (paused s) (cooldownSeconds s)
    (lastSubmissionTime s) (lastDecryptionRequestTime s) v
    (batchClosed s) (decryptionContexts s) (encryptedData s).

Definition set_batchClosed (k : uint256) (v : bool) (s : State) : State :=
  MkState (owner s) (isProvider s) (paused s) (cooldownSeconds s)
    (lastSubmissionTime s) (lastDecryptionRequestTime s) (currentBatchId s)
    (<[k := v]> (batchClosed s)) (decryptionContexts s) (encryptedData s).

Definition set_decryptionContexts (k : uint256) (v : DecryptionContext) (s : State) : State :=
  MkState (owner s) (isProvider s) (paused s) (cooldownSeconds s)
    (lastSubmissionTime s) (lastDecryptionRequestTime s) (currentBatchId s)
    (batchClosed s) (<[k := v]> (decryptionContexts s)) (encryptedData s).

Definition set_encryptedData (k : uint256) (v : euint32) (s : State) : State :=
  MkState (owner s) (isProvider s) (paused s) (cooldownSeconds s)
    (lastSubmissionTime s) (lastDecryptionRequestTime s) (currentBatchId s)
    (batchClosed s) (decryptionContexts s) (<[k := v]> (encryptedData s)).

(** The public getters of the mappings. *)
Definition isProvider_at (s : State) (a : address) : bool := mget false (isProvider s) a.
Definition lastSubmissionTime_at (s : State) (a : address) : uint256 := mget 0 (lastSubmissionTime s) a.
Definition lastDecryptionRequestTime_at (s : State) (a : address) : uint256 :=
  mget 0 (lastDecryptionRequestTime s) a.
Definition batchClosed_at (s : State) (b : uint256) : bool := mget false (batchClosed s) b.
Definition decryptionContexts_at (s : State) (r : uint256) : DecryptionContext :=
  mget zeroContext (decryptionContexts s) r.
Definition encryptedData_at (s : State) (b : uint256) : euint32 := mget 0 (encryptedData s) b.

(** ** Events and errors *)

Inductive Event : Type :=
| OwnershipTransferred (previousOwner newOwner : address)
| ProviderAdded (provider : address)
| ProviderRemoved (provider : address)
| Paused (account : address)
| Unpaused (account : address)
| CooldownSecondsSet (oldCooldownSeconds newCooldownSeconds : uint256)
| BatchOpened (batch : uint256)
| BatchClosed (batch : uint256)
| DataSubmitted (provider : address) (batch : uint256) (encryptedValue : euint32)
| DecryptionRequested (requestId batch : uint256)
| DecryptionCompleted (requestId batch : uint256) (decryptedValue : uint32).

(** The eight custom errors of the contract, and the three ways a call can
    revert outside them: an arithmetic panic of checked arithmetic, a revert
    inside the FHE library (oracle request refused, signatures rejected) and a
    failed [abi.decode]. *)
Inductive Error : Type :=
| NotOwner
| NotProvider
| PausedContract
| CooldownActive
| BatchClosedOrInvalid
| ReplayAttempt
| StateMismatch
| InvalidBatchId
| Panic (code : Z)
| OracleRequestReverted
| InvalidProof
| AbiDecodeReverted.

(** ** The monad of function bodies *)

(** What the contract hands to the decryption oracle in a request: the
    ciphertext handles to decrypt, the selector of the function to call back
    and the request id the request got. *)
Inductive Selector : Type :=
| myCallback_selector.

Record OracleRequest : Type := MkOracleRequest {
  request_handles : list bytes32;
  request_callback : Selector;
  request_id : uint256
}.

(** The machine a body runs on: the storage, the event log of the contract,
    and the requests sent to the oracle. *)
Record Machine : Type := MkMachine {
  storage : State;
  logs : list Event;
  outbox : list OracleRequest
}.

Definition M (A : Type) : Type := Machine -> (Error + A) * Machine.

Definition ret {A : Type} (a : A) : M A := fun m => (inr a, m).

Definition bind {A B : Type} (c : M A) (k : A -> M B) : M B :=
  fun m => match c m with
           | (inr a, m') => k a m'
           | (inl e, m') => (inl e, m')
           end.

Definition revert {A : Type} (e : Error) : M A := fun m => (inl e, m).

Definition sload {A : Type} (f : State -> A) : M A :=
  fun m => (inr (f (storage m)), m).

Definition sstore (f : State -> State) : M unit :=
  fun m => (inr tt, MkMachine (f (storage m)) (logs m) (outbox m)).

Definition emit (ev : Event) : M unit :=
  fun m => (inr tt, MkMachine (storage m) (logs m ++ [ev]) (outbox m)).

(** [if (c) revert e;] *)
Definition revert_if (c : bool) (e : Error) : M unit :=
  if c then revert e else ret tt.

Declare Scope sol_scope.
Delimit Scope sol_scope with sol.
Notation "x <- c ;; k" := (bind c (fun x => k))
  (at level 100, c at next level, k at level 200, right associativity) : sol_scope.
Notation "c ;; k" := (bind c (fun _ => k))
  (at level 100, k at level 200, right associativity) : sol_scope.
Local Open Scope sol_scope.

(** Checked [uint256] addition. *)
Definition checked_add (a b : uint256) : M uint256 :=
  if MAX_UINT256 <? a + b then revert (Panic 17) else ret (a + b).

(** ** ABI encoding and decoding *)

Definition byte_of_Z (z : Z) : byte :=
  default x00 (Byte.of_N (Z.to_N (z mod 256))).

Definition Z_of_byte (b : byte) : Z := Z.of_N (Byte.to_N b).

(** The [n] low bytes of [w], most significant first. *)
Fixpoint be_bytes (n : nat) (w : Z) : list byte :=
  match n with
  | O => []
  | S k => be_bytes k (w / 256) ++ [byte_of_Z w]
  end.

Definition be_value (bs : list byte) : Z :=
  fold_left (fun acc b => acc * 256 + Z_of_byte b) bs 0.

Definition abi_word (w : Z) : list byte := be_bytes 32 w.

(** [abi.encode(cts, a)] for [bytes32[] cts] and [address a]: the head holds
    the offset of the array (two words, 0x40) and the address, the tail the
    length of the array and its elements. *)
Definition abi_encode (cts : list bytes32) (a : address) : list byte :=
  abi_word 64 ++ abi_word a ++ abi_word (Z.of_nat (length cts))
    ++ concat (map abi_word cts).

(** [abi.decode(data, (uint32))]: fails on fewer than 32 bytes and on a
    first word that is not a [uint32]; bytes after the first word are
    ignored. *)
Definition decode_uint32 (data : list byte) : option uint32 :=
  if (length data <? 32)%nat then None
  else
    let w := be_value (firstn 32 data) in
    if 2 ^ 32 <=? w then None else Some w.

Definition abi_decode_uint32 (data : list byte) : M uint32 :=
  match decode_uint32 data with
  | Some w => ret w
  | None => revert AbiDecodeReverted
  end.

(** ** The host: what the contract takes from the chain and the FHE library *)

(** [FHE_verify] is the signature check that [FHE.checkSignatures] reverts
    on.  The log holds the events the contract itself emits; log entries
    written inside the FHE library are not part of the model. *)
Class Host : Type := MkHost {
  this : address;
  keccak256 : list byte -> bytes32;
  FHE_toBytes32 : euint32 -> bytes32;
  FHE_verify : uint256 -> list byte -> list byte -> bool
}.

(** The per-transaction environment: caller, block time and, for a call that
    reaches [FHE.requestDecryption], the request id the oracle assigns
    ([None] when the external call reverts). *)
Record Tx : Type := MkTx {
  msg_sender : address;
  block_timestamp : uint256;
  oracle_reply : option uint256
}.

Section Contract.
Context {host : Host}.

(** [FHE.requestDecryption(cts, selector)]: the request for the handles
    [cts], to be answered through [selector], goes out to the oracle, which
    assigns its id. *)
Definition FHE_requestDecryption (tx : Tx) (cts : list bytes32) (selector : Selector)
  : M uint256 :=
  fun m =>
    match oracle_reply tx with
    | Some requestId =>
        (inr requestId,
         MkMachine (storage m) (logs m)
           (outbox m ++ [MkOracleRequest cts selector requestId]))
    | None => (inl OracleRequestReverted, m)
    end.

Definition FHE_checkSignatures (requestId : uint256) (cleartexts proof : list byte) : M unit :=
  revert_if (negb (FHE_verify requestId cleartexts proof)) InvalidProof.

(** *** Modifiers *)

Definition onlyOwner (tx : Tx) (body : M unit) : M unit :=
  o <- sload owner ;;
  revert_if (negb (msg_sender tx =? o)) NotOwner ;;
  body.

Definition onlyProvider (tx : Tx) (body : M unit) : M unit :=
  p <- sload (fun s => isProvider_at s (msg_sender tx)) ;;
  revert_if (negb p) NotProvider ;;
  body.

Definition whenNotPaused (body : M unit) : M unit :=
  p <- sload paused ;;
  revert_if p PausedContract ;;
  body.

(** *** Constructor and functions *)

Definition constructor (tx : Tx) : M unit :=
  sstore (set_owner (msg_sender tx)) ;;
  emit (OwnershipTransferred 0 (msg_sender tx)) ;;
  sstore (set_currentBatchId 1) ;;
  c <- sload currentBatchId ;;
  emit (BatchOpened c) ;;
  sstore (set_cooldownSeconds 60).

Definition transferOwnership (tx : Tx) (newOwner : address) : M unit :=
  onlyOwner tx (
    o <- sload owner ;;
    emit (OwnershipTransferred o newOwner) ;;
    sstore (set_owner newOwner)).

Definition addProvider (tx : Tx) (provider : address) : M unit :=
  onlyOwner tx (
    p <- sload (fun s => isProvider_at s provider) ;;
    if negb p then
      sstore (set_isProvider provider true) ;;
      emit (ProviderAdded provider)
    else ret tt).

Definition removeProvider (tx : Tx) (provider : address) : M unit :=
  onlyOwner tx (
    p <- sload (fun s => isProvider_at s provider) ;;
    if p then
      sstore (set_isProvider provider false) ;;
      emit (ProviderRemoved provider)
    else ret tt).

Definition pause (tx : Tx) : M unit :=
  onlyOwner tx (whenNotPaused (
    sstore (set_paused true) ;;
    emit (Paused (msg_sender tx)))).

Definition unpause (tx : Tx) : M unit :=
  onlyOwner tx (
    p <- sload paused ;;
    revert_if (negb p) PausedContract ;;
    sstore (set_paused false) ;;
    emit (Unpaused (msg_sender tx))).

Definition setCooldownSeconds (tx : Tx) (newCooldownSeconds : uint256) : M unit :=
  onlyOwner tx (
    old <- sload cooldownSeconds ;;
    emit (CooldownSecondsSet old newCooldownSeconds) ;;
    sstore (set_cooldownSeconds newCooldownSeconds)).

Definition openNewBatch (tx : Tx) : M unit :=
  onlyOwner tx (
    c <- sload currentBatchId ;;
    c' <- checked_add c 1 ;;
    sstore (set_currentBatchId c') ;;
    cur <- sload currentBatchId ;;
    emit (BatchOpened cur)).

Definition closeBatch (tx : Tx) (batch : uint256) : M unit :=
  onlyOwner tx (
    cur <- sload currentBatchId ;;
    closed <- sload (fun s => batchClosed_at s batch) ;;
    revert_if ((batch =? 0) || (cur <? batch) || closed) InvalidBatchId ;;
    sstore (set_batchClosed batch true) ;;
    emit (BatchClosed batch)).

Definition _hashCiphertexts (cts : list bytes32) : bytes32 :=
  keccak256 (abi_encode cts this).

Definition submitEncryptedData (tx : Tx) (encryptedValue : euint32) : M unit :=
  onlyProvider tx (whenNotPaused (
    last <- sload (fun s => lastSubmissionTime_at s (msg_sender tx)) ;;
    cd <- sload cooldownSeconds ;;
    ready <- checked_add last cd ;;
    revert_if (block_timestamp tx <? ready) CooldownActive ;;
    cur <- sload currentBatchId ;;
    closed <- sload (fun s => batchClosed_at s cur) ;;
    revert_if closed BatchClosedOrInvalid ;;
    sstore (set_lastSubmissionTime (msg_sender tx) (block_timestamp tx)) ;;
    cur1 <- sload currentBatchId ;;
    sstore (set_encryptedData cur1 encryptedValue) ;;
    cur2 <- sload currentBatchId ;;
    emit (DataSubmitted (msg_sender tx) cur2 encryptedValue))).

Definition requestDecryptionForBatch (tx : Tx) (batch : uint256) : M unit :=
  onlyProvider tx (whenNotPaused (
    last <- sload (fun s => lastDecryptionRequestTime_at s (msg_sender tx)) ;;
    cd <- sload cooldownSeconds ;;
    ready <- checked_add last cd ;;
    revert_if (block_timestamp tx <? ready) CooldownActive ;;
    cur <- sload currentBatchId ;;
    closed <- sload (fun s => batchClosed_at s batch) ;;
    revert_if ((batch =? 0) || (cur <? batch) || negb closed) InvalidBatchId ;;
    sstore (set_lastDecryptionRequestTime (msg_sender tx) (block_timestamp tx)) ;;
    dataToDecrypt <- sload (fun s => encryptedData_at s batch) ;;
    let cts := [FHE_toBytes32 dataToDecrypt] in
    let hash := _hashCiphertexts cts in
    requestId <- FHE_requestDecryption tx cts myCallback_selector ;;
    sstore (set_decryptionContexts requestId
              {| batchId := batch; stateHash := hash; processed := false |}) ;;
    emit (DecryptionRequested requestId batch))).

Definition myCallback (tx : Tx) (requestId : uint256) (cleartexts proof : list byte) : M unit :=
  seen <- sload (fun s => processed (decryptionContexts_at s requestId)) ;;
  revert_if seen ReplayAttempt ;;
  ctx <- sload (fun s => decryptionContexts_at s requestId) ;;
  dataToDecrypt <- sload (fun s => encryptedData_at s (batchId ctx)) ;;
  let cts := [FHE_toBytes32 dataToDecrypt] in
  let currentHash := _hashCiphertexts cts in
  revert_if (negb (currentHash =? stateHash ctx)) StateMismatch ;;
  FHE_checkSignatures requestId cleartexts proof ;;
  decryptedValue <- abi_decode_uint32 cleartexts ;;
  let ctx' := {| batchId := batchId ctx; stateHash := stateHash ctx; processed := true |} in
  sstore (set_decryptionContexts requestId ctx') ;;
  emit (DecryptionCompleted requestId (batchId ctx') decryptedValue).

(** *** Transactions *)

Inductive Call : Type :=
| CallTransferOwnership (newOwner : address)
| CallAddProvider (provider : address)
| CallRemoveProvider (provider : address)
| CallPause
| CallUnpause
| CallSetCooldownSeconds (newCooldownSeconds : uint256)
| CallOpenNewBatch
| CallCloseBatch (batch : uint256)
| CallSubmitEncryptedData (encryptedValue : euint32)
| CallRequestDecryptionForBatch (batch : uint256)
| CallMyCallback (requestId : uint256) (cleartexts proof : list byte).

Definition body (tx : Tx) (c : Call) : M unit :=
  match c with
  | CallTransferOwnership a => transferOwnership tx a
  | CallAddProvider a => addProvider tx a
  | CallRemoveProvider a => removeProvider tx a
  | CallPause => pause tx
  | CallUnpause => unpause tx
  | CallSetCooldownSeconds n => setCooldownSeconds tx n
  | CallOpenNewBatch => openNewBatch tx
  | CallCloseBatch b => closeBatch tx b
  | CallSubmitEncryptedData v => submitEncryptedData tx v
  | CallRequestDecryptionForBatch b => requestDecryptionForBatch tx b
  | CallMyCallback r ct pf => myCallback tx r ct pf
  end.

Inductive Receipt : Type :=
| Success (s' : State) (evs : list Event)
| Reverted (e : Error).

(** The transaction boundary: the storage and the log of a reverted body
    are dropped. *)
Definition transact (c : M unit) (s : State) : Receipt :=
  match c (MkMachine s [] []) with
  | (inr _, m) => Success (storage m) (logs m)
  | (inl e, _) => Reverted e
  end.

Definition execute (s : State) (tx : Tx) (c : Call) : Receipt :=
  transact (body tx c) s.

(** The requests that reach the oracle in the transaction: those of a body
    that returns; a reverted body sends none. *)
Definition oracle_requests (s : State) (tx : Tx) (c : Call) : list OracleRequest :=
  match body tx c (MkMachine s [] []) with
  | (inr _, m) => outbox m
  | (inl _, _) => []
  end.

(** The storage the chain holds after the transaction. *)
Definition state_after (s : State) (r : Receipt) : State :=
  match r with
  | Success s' _ => s'
  | Reverted _ => s
  end.

Definition step (s : State) (t : Tx * Call) : State :=
  state_after s (execute s (fst t) (snd t)).

Definition run (s : State) (trace : list (Tx * Call)) : State :=
  fold_left step trace s.

Definition deploy (tx : Tx) : State :=
  state_after zeroState (transact (constructor tx) zeroState).

(** States the deployed contract can be in. *)
Definition reachable (s : State) : Prop :=
  exists (tx0 : Tx) (trace : list (Tx * Call)), s = run (deploy tx0) trace.

End Contract.

(** ** A concrete host and a concrete run, to evaluate the model on *)

(** An instance of [Host] for evaluation: handles are their own [bytes32],
    the digest is a small arithmetic stand-in for [keccak256], and a proof is
    accepted when it is not empty. *)
Definition sample_host : Host :=
  {| this := 12648430;
     keccak256 := fun bs => 1 + be_value bs mod 1000003;
     FHE_toBytes32 := fun h => h;
     FHE_verify := fun _ _ proof => negb (length proof =? 0)%nat |}.

Definition tx_at (sender : address) (now : uint256) : Tx :=
  {| msg_sender := sender; block_timestamp := now; oracle_reply := None |}.

Definition tx_oracle (sender : address) (now : uint256) (requestId : uint256) : Tx :=
  {| msg_sender := sender; block_timestamp := now; oracle_reply := Some requestId |}.

(** Owner 1 deploys at time 900. *)
Definition state_deployed : State := deploy (tx_at 1 900).

(** The owner registers provider 2; the provider submits handle 777 into
    batch 1; the owner closes batch 1. *)
Definition scenario_closed : list (Tx * Call) :=
  [ (tx_at 1 1000, CallAddProvider 2);
    (tx_at 2 1100, CallSubmitEncryptedData 777);
    (tx_at 1 1200, CallCloseBatch 1) ].

(** Then the provider requests the decryption of batch 1 and the oracle
    assigns request id 5. *)
Definition scenario_requested : list (Tx * Call) :=
  scenario_closed ++ [ (tx_oracle 2 1300 5, CallRequestDecryptionForBatch 1) ].

(** Then the owner sets the cooldown to the largest [uint256]. *)
Definition scenario_huge_cooldown : list (Tx * Call) :=
  scenario_requested ++ [ (tx_at 1 1350, CallSetCooldownSeconds MAX_UINT256) ].

Definition cleartext42 : list byte := be_bytes 32 42.
Definition some_proof : list byte := [x01].

Definition state_provider : State :=
  @run sample_host state_deployed [ (tx_at 1 1000, CallAddProvider 2) ].

Definition state_closed : State :=
  @run sample_host state_deployed scenario_closed.

Definition state_requested : State :=
  @run sample_host state_deployed scenario_requested.

Definition state_finalized : State :=
  @step sample_host state_requested (tx_at 9 1400, CallMyCallback 5 cleartext42 some_proof).

Definition state_huge_cooldown : State :=
  @run sample_host state_deployed scenario_huge_cooldown.

(** Batch 1 left open while batch 2 is the current one. *)
Definition state_two_batches : State :=
  @run sample_host state_deployed [ (tx_at 1 950, CallOpenNewBatch) ].

(** ** Classifying calls and transactions *)

(** The calls behind [onlyOwner]. *)
Definition owner_only (c : Call) : bool :=
  match c with
  | CallTransferOwnership _ | CallAddProvider _ | CallRemoveProvider _
  | CallPause | CallUnpause | CallSetCooldownSeconds _
  | CallOpenNewBatch | CallCloseBatch _ => true
  | CallSubmitEncryptedData _ | CallRequestDecryptionForBatch _
  | CallMyCallback _ _ _ => false
  end.

(** The transaction is a [requestDecryptionForBatch] in which the oracle
    hands out the request id [r]. *)
Definition assigns_request (r : uint256) (t : Tx * Call) : bool :=
  match snd t with
  | CallRequestDecryptionForBatch _ =>
      match oracle_reply (fst t) with
      | Some r' => r' =? r
      | None => false
      end
  | _ => false
  end.

(** The transaction is a [submitEncryptedData] sent by [a]. *)
Definition submits_as (a : address) (t : Tx * Call) : bool :=
  match snd t with
  | CallSubmitEncryptedData _ => msg_sender (fst t) =? a
  | _ => false
  end.

(** ** The state-hash invariant *)

Section StateHashInvariant.
Context {host : Host}.

(** The batch counter starts at 1; every stored context names a batch
    that can no longer be written (closed, or below the current batch) and
    holds the hash of the ciphertext that batch holds now. *)
Definition requests_bound (s : State) : Prop :=
  1 ≤ currentBatchId s ∧
  ∀ (r : uint256) (ctx : DecryptionContext),
    decryptionContexts s !! r = Some ctx →
    (batchClosed_at s (batchId ctx) = true ∨ batchId ctx < currentBatchId s) ∧
    stateHash ctx = _hashCiphertexts [FHE_toBytes32 (encryptedData_at s (batchId ctx))].

End StateHashInvariant.

(** ** Further classifications and invariants *)

(** The calls behind [onlyProvider]. *)
Definition provider_only (c : Call) : bool :=
  match c with
  | CallSubmitEncryptedData _ | CallRequestDecryptionForBatch _ => true
  | _ => false
  end.

(** The transaction is an [addProvider(p)]. *)
Definition adds_provider (p : address) (t : Tx * Call) : bool :=
  match snd t with
  | CallAddProvider p' => p' =? p
  | _ => false
  end.

(** The transaction is an [openNewBatch]. *)
Definition opens_batch (t : Tx * Call) : bool :=
  match snd t with
  | CallOpenNewBatch => true
  | _ => false
  end.

(** The transaction is a callback for request id [r]. *)
Definition finalizes (r : uint256) (t : Tx * Call) : bool :=
  match snd t with
  | CallMyCallback r' _ _ => r' =? r
  | _ => false
  end.

(** The same receipt over a transformed storage. *)
Definition map_receipt (f : State → State) (r : Receipt) : Receipt :=
  match r with
  | Success s' evs => Success (f s') evs
  | Reverted e => Reverted e
  end.

(** The batch counter is a [uint256] from 1 on, and only batches that have
    been current carry a closed flag or a stored ciphertext (batch ids are
    [uint256] values, so not negative). *)
Definition batches_wf (s : State) : Prop :=
  1 ≤ currentBatchId s ≤ MAX_UINT256 ∧
  (∀ b : uint256, 0 ≤ b → batchClosed_at s b = true → 1 ≤ b ≤ currentBatchId s) ∧
  (∀ b : uint256, is_Some (encryptedData s !! b) → 1 ≤ b ≤ currentBatchId s).

(** All values of a list are [bytes32] words. *)
Definition words (ws : list Z) : Prop := Forall (λ w, 0 ≤ w < 2 ^ 256) ws.

(** * Properties *)

(** ** Closed forms of the entry points

    For every external function, what a transaction that calls it returns,
    as a cascade of the checks in the order the body performs them. *)

Ltac unfold_body :=
  unfold execute, transact, body, transferOwnership, addProvider, removeProvider,
    pause, unpause, setCooldownSeconds, openNewBatch, closeBatch,
    submitEncryptedData, requestDecryptionForBatch, myCallback,
    onlyOwner, onlyProvider, whenNotPaused, FHE_requestDecryption,
    FHE_checkSignatures, abi_decode_uint32, checked_add, bind, sload, sstore,
    emit, revert_if, revert, ret.

(** Case analysis on the leftmost atom of a boolean condition. *)
Ltac destruct_atom b :=
  lazymatch b with
  | true => fail
  | false => fail
  | negb ?c => destruct_atom c
  | orb ?x _ => destruct_atom x
  | andb ?x _ => destruct_atom x
  | _ => destruct b eqn:?
  end.

(** Split on the first test whose condition contains no other test. *)
Ltac split_test :=
  match goal with
  | |- context [if ?b then _ else _] =>
      lazymatch b with
      | context [if _ then _ else _] => fail
      | _ => destruct_atom b
      end
  | |- context [match ?o with Some _ => _ | None => _ end] =>
      lazymatch o with
      | context [if _ then _ else _] => fail
      | _ => destruct o eqn:?
      end
  end.

Ltac split_tests := repeat (split_test; cbn [negb orb andb]; try done).

Ltac by_cases := unfold_body; cbn; repeat (split_test; cbn); try reflexivity.

Section ClosedForms.
Context {host : Host}.
Implicit Types (s : State) (tx : Tx).

Lemma execute_transferOwnership s tx newOwner :
  execute s tx (CallTransferOwnership newOwner) =
  if negb (msg_sender tx =? owner s) then Reverted NotOwner
  else Success (set_owner newOwner s) [OwnershipTransferred (owner s) newOwner].
Proof. by_cases. Qed.

Lemma execute_addProvider s tx p :
  execute s tx (CallAddProvider p) =
  if negb (msg_sender tx =? owner s) then Reverted NotOwner
  else if isProvider_at s p then Success s []
  else Success (set_isProvider p true s) [ProviderAdded p].
Proof. by_cases. Qed.

Lemma execute_removeProvider s tx p :
  execute s tx (CallRemoveProvider p) =
  if negb (msg_sender tx =? owner s) then Reverted NotOwner
  else if isProvider_at s p then Success (set_isProvider p false s) [ProviderRemoved p]
  else Success s [].
Proof. by_cases. Qed.

Lemma execute_pause s tx :
  execute s tx CallPause =
  if negb (msg_sender tx =? owner s) then Reverted NotOwner
  else if paused s then Reverted PausedContract
  else Success (set_paused true s) [Paused (msg_sender tx)].
Proof. by_cases. Qed.

Lemma execute_unpause s tx :
  execute s tx CallUnpause =
  if negb (msg_sender tx =? owner s) then Reverted NotOwner
  else if negb (paused s) then Reverted PausedContract
  else Success (set_paused false s) [Unpaused (msg_sender tx)].
Proof. by_cases. Qed.

Lemma execute_setCooldownSeconds s tx n :
  execute s tx (CallSetCooldownSeconds n) =
  if negb (msg_sender tx =? owner s) then Reverted NotOwner
  else Success (set_cooldownSeconds n s) [CooldownSecondsSet (cooldownSeconds s) n].
Proof. by_cases. Qed.

Lemma execute_openNewBatch s tx :
  execute s tx CallOpenNewBatch =
  if negb (msg_sender tx =? owner s) then Reverted NotOwner
  else if MAX_UINT256 <? currentBatchId s + 1 then Reverted (Panic 17)
  else Success (set_currentBatchId (currentBatchId s + 1) s)
         [BatchOpened (currentBatchId s + 1)].
Proof. by_cases. Qed.

Lemma execute_closeBatch s tx b :
  execute s tx (CallCloseBatch b) =
  if negb (msg_sender tx =? owner s) then Reverted NotOwner
  else if (b =? 0) || (currentBatchId s <? b) || batchClosed_at s b
       then Reverted InvalidBatchId
  else Success (set_batchClosed b true s) [BatchClosed b].
Proof. by_cases. Qed.

Lemma execute_submitEncryptedData s tx v :
  execute s tx (CallSubmitEncryptedData v) =
  let last := lastSubmissionTime_at s (msg_sender tx) in
  if negb (isProvider_at s (msg_sender tx)) then Reverted NotProvider
  else if paused s then Reverted PausedContract
  else if MAX_UINT256 <? last + cooldownSeconds s then Reverted (Panic 17)
  else if block_timestamp tx <? last + cooldownSeconds s then Reverted CooldownActive
  else if batchClosed_at s (currentBatchId s) then Reverted BatchClosedOrInvalid
  else Success
         (set_encryptedData (currentBatchId s) v
            (set_lastSubmissionTime (msg_sender tx) (block_timestamp tx) s))
         [DataSubmitted (msg_sender tx) (currentBatchId s) v].
Proof. by_cases. Qed.

Lemma execute_requestDecryptionForBatch s tx b :
  execute s tx (CallRequestDecryptionForBatch b) =
  let last := lastDecryptionRequestTime_at s (msg_sender tx) in
  if negb (isProvider_at s (msg_sender tx)) then Reverted NotProvider
  else if paused s then Reverted PausedContract
  else if MAX_UINT256 <? last + cooldownSeconds s then Reverted (Panic 17)
  else if block_timestamp tx <? last + cooldownSeconds s then Reverted CooldownActive
  else if (b =? 0) || (currentBatchId s <? b) || negb (batchClosed_at s b)
       then Reverted InvalidBatchId
  else match oracle_reply tx with
       | None => Reverted OracleRequestReverted
       | Some requestId =>
           Success
             (set_decryptionContexts requestId
                {| batchId := b;
                   stateHash := _hashCiphertexts [FHE_toBytes32 (encryptedData_at s b)];
                   processed := false |}
                (set_lastDecryptionRequestTime (msg_sender tx) (block_timestamp tx) s))
             [DecryptionRequested requestId b]
       end.
Proof. by_cases. Qed.

Lemma execute_myCallback s tx r ct pf :
  execute s tx (CallMyCallback r ct pf) =
  let ctx := decryptionContexts_at s r in
  if processed ctx then Reverted ReplayAttempt
  else if negb (_hashCiphertexts [FHE_toBytes32 (encryptedData_at s (batchId ctx))]
                =? stateHash ctx)
       then Reverted StateMismatch
  else if negb (FHE_verify r ct pf) then Reverted InvalidProof
  else match decode_uint32 ct with
       | None => Reverted AbiDecodeReverted
       | Some w =>
           Success
             (set_decryptionContexts r
                {| batchId := batchId ctx; stateHash := stateHash ctx; processed := true |} s)
             [DecryptionCompleted r (batchId ctx) w]
       end.
Proof. by_cases. Qed.

(** What goes out to the oracle: nothing, except in a
    [requestDecryptionForBatch] that passes its checks and is accepted by
    the oracle, which sends one request, for the handle of the batch and
    with [myCallback] as the function to call back. *)
Lemma oracle_requests_closed_form s tx c :
  oracle_requests s tx c =
  match c with
  | CallRequestDecryptionForBatch b =>
      match execute s tx c, oracle_reply tx with
      | Success _ _, Some requestId =>
          [ {| request_handles := [FHE_toBytes32 (encryptedData_at s b)];
               request_callback := myCallback_selector;
               request_id := requestId |} ]
      | _, _ => []
      end
  | _ => []
  end.
Proof.
  destruct c; unfold oracle_requests;
    try (rewrite execute_requestDecryptionForBatch; cbn zeta);
    unfold_body; cbn; repeat (split_test; cbn); done.
Qed.

End ClosedForms.

Create Rewrite HintDb exec.

#[export] Hint Rewrite
  @execute_transferOwnership @execute_addProvider @execute_removeProvider
  @execute_pause @execute_unpause @execute_setCooldownSeconds
  @execute_openNewBatch @execute_closeBatch @execute_submitEncryptedData
  @execute_requestDecryptionForBatch @execute_myCallback : exec.

(** Case analysis of one transaction: which call, and which branch of its
    closed form. *)
Ltac step_cases t :=
  let tx := fresh "tx" in
  let c := fresh "c" in
  destruct t as [tx c]; unfold step; cbn [fst snd];
  destruct c; autorewrite with exec; cbn zeta;
  repeat (split_test; cbn [state_after negb orb andb]).

(** ** ABI words *)

Lemma length_be_bytes (n : nat) (w : Z) : length (be_bytes n w) = n.
Proof.
  revert w. induction n as [|n IH]; intros w; [done|].
  cbn [be_bytes]. rewrite length_app, IH. cbn. lia.
Qed.

Lemma length_abi_encode (cts : list Z) (a : Z) :
  length (abi_encode cts a) = (32 * (3 + length cts))%nat.
Proof.
  unfold abi_encode, abi_word. rewrite !length_app, !length_be_bytes.
  induction cts as [|c cts IH]; [done|].
  cbn [map concat length]. rewrite length_app, length_be_bytes. lia.
Qed.

Lemma Z_of_byte_of_Z (z : Z) : Z_of_byte (byte_of_Z z) = z mod 256.
Proof.
  unfold Z_of_byte, byte_of_Z.
  pose proof (Z.mod_pos_bound z 256 ltac:(lia)) as Hz.
  destruct (Byte.of_N (Z.to_N (z mod 256))) as [b|] eqn:E; cbn.
  - apply Byte.to_of_N in E. rewrite E. lia.
  - apply Byte.of_N_None_iff in E. lia.
Qed.

Lemma be_value_snoc (bs : list byte) (b : byte) :
  be_value (bs ++ [b]) = be_value bs * 256 + Z_of_byte b.
Proof. unfold be_value. by rewrite fold_left_app. Qed.

Lemma be_value_be_bytes (n : nat) (w : Z) :
  0 ≤ w → be_value (be_bytes n w) = w mod 256 ^ Z.of_nat n.
Proof.
  revert w. induction n as [|n IH]; intros w Hw.
  - cbn. by rewrite Z.mod_1_r.
  - cbn [be_bytes]. rewrite be_value_snoc, Z_of_byte_of_Z, IH by (apply Z.div_pos; lia).
    rewrite Nat2Z.inj_succ, Z.pow_succ_r by lia.
    pose proof (Z.pow_pos_nonneg 256 (Z.of_nat n) ltac:(lia) ltac:(lia)).
    rewrite Z.rem_mul_r by lia. lia.
Qed.

(** Decoding undoes the encoding of a [uint32] word. *)
Lemma decode_uint32_abi_word (w : Z) :
  0 ≤ w < 2 ^ 32 → decode_uint32 (abi_word w) = Some w.
Proof.
  intros Hw. unfold decode_uint32, abi_word.
  rewrite length_be_bytes. cbn [Nat.ltb Nat.leb].
  replace (Nat.ltb 32 32) with false by done.
  rewrite firstn_all2 by (rewrite length_be_bytes; lia).
  rewrite be_value_be_bytes by lia.
  rewrite Z.mod_small by (change (256 ^ Z.of_nat 32) with (2 ^ 256); lia).
  by replace (2 ^ 32 <=? w) with false by lia.
Qed.

(** ** Reading a mapping after a write *)

Lemma mget_insert {V : Type} (d : V) (m : gmap Z V) (k k' : Z) (v : V) :
  mget d (<[k := v]> m) k' = if decide (k = k') then v else mget d m k'.
Proof. unfold mget. rewrite lookup_insert. by case_decide. Qed.

Lemma mget_insert_eq {V : Type} (d : V) (m : gmap Z V) (k : Z) (v : V) :
  mget d (<[k := v]> m) k = v.
Proof. rewrite mget_insert. by case_decide. Qed.

Lemma mget_insert_ne {V : Type} (d : V) (m : gmap Z V) (k k' : Z) (v : V) :
  k ≠ k' → mget d (<[k := v]> m) k' = mget d m k'.
Proof. intros. rewrite mget_insert. by case_decide. Qed.

Lemma mget_lookup {V : Type} (d : V) (m : gmap Z V) (k : Z) (v : V) :
  m !! k = Some v → mget d m k = v.
Proof. unfold mget. by intros ->. Qed.

Lemma mget_absent {V : Type} (d : V) (m : gmap Z V) (k : Z) :
  m !! k = None → mget d m k = d.
Proof. unfold mget. by intros ->. Qed.

(** ** What one transaction can change *)

Section Frames.
Context {host : Host}.
Implicit Types (s : State) (tx : Tx) (t : Tx * Call) (trace : list (Tx * Call)).

Lemma run_app s trace1 trace2 :
  run s (trace1 ++ trace2) = run (run s trace1) trace2.
Proof. apply fold_left_app. Qed.

Lemma run_snoc s trace t : run s (trace ++ [t]) = step (run s trace) t.
Proof. by rewrite run_app. Qed.

(** A property kept by every transaction is kept by every run. *)
Lemma run_preserves (P : State → Prop) (ok : Tx * Call → Prop) :
  (∀ s t, ok t → P s → P (step s t)) →
  ∀ trace s, Forall ok trace → P s → P (run s trace).
Proof.
  intros Hstep trace. induction trace as [|t trace IH]; intros s Hok HP; [done|].
  inversion Hok; subst.
  change (run s (t :: trace)) with (run (step s t) trace).
  apply IH; [done|]. by apply Hstep.
Qed.

(** Closing is one-way: no transaction reopens a batch. *)
Lemma batchClosed_step s t b :
  batchClosed_at s b = true → batchClosed_at (step s t) b = true.
Proof.
  intros Hb. step_cases t; try done.
  unfold batchClosed_at in *; cbn. rewrite mget_insert. by case_decide.
Qed.

Lemma batchClosed_run s trace b :
  batchClosed_at s b = true → batchClosed_at (run s trace) b = true.
Proof.
  intros. apply (run_preserves (λ s, batchClosed_at s b = true) (λ _, True)); auto.
  - intros. by apply batchClosed_step.
  - by apply Forall_true.
Qed.

(** The slot of a batch changes only in a successful submission, made while
    that batch is the current one and open. *)
Lemma encryptedData_step s t b :
  encryptedData (step s t) !! b = encryptedData s !! b ∨
  (b = currentBatchId s ∧ batchClosed_at s b = false ∧
   ∃ v evs, snd t = CallSubmitEncryptedData v ∧
            execute s (fst t) (snd t) = Success (step s t) evs ∧
            encryptedData (step s t) !! b = Some v).
Proof.
  step_cases t; try (by left).
  destruct (decide (b = currentBatchId s)) as [->|Hne].
  - right. repeat split; [done|]. eexists _, _. cbn [fst snd].
    autorewrite with exec. cbn zeta.
    repeat match goal with H : _ = _ |- _ => rewrite H end. cbn.
    repeat split. apply lookup_insert_eq.
  - left. cbn. by apply lookup_insert_ne.
Qed.

(** The only write to [encryptedData]: a successful submission stores the
    value in the slot of the current batch, which is open. *)
Lemma encryptedData_write s t :
  encryptedData (step s t) = encryptedData s ∨
  ∃ v, snd t = CallSubmitEncryptedData v ∧
       batchClosed_at s (currentBatchId s) = false ∧
       encryptedData (step s t) = <[currentBatchId s := v]> (encryptedData s).
Proof. step_cases t; try (by left). right. by eexists. Qed.

Lemma closed_slot_step s t b :
  batchClosed_at s b = true → encryptedData (step s t) !! b = encryptedData s !! b.
Proof.
  intros Hb. destruct (encryptedData_step s t b) as [?|(_ & Hopen & _)]; [done|congruence].
Qed.

Lemma closed_slot_run s trace b :
  batchClosed_at s b = true → encryptedData (run s trace) !! b = encryptedData s !! b.
Proof.
  revert s. induction trace as [|t trace IH]; intros s Hb; [done|].
  change (run s (t :: trace)) with (run (step s t) trace).
  rewrite IH by (by apply batchClosed_step). by apply closed_slot_step.
Qed.

(** The owner changes only in a [transferOwnership] sent by the owner. *)
Lemma owner_step s t :
  owner (step s t) = owner s ∨
  (msg_sender (fst t) = owner s ∧
   ∃ newOwner, snd t = CallTransferOwnership newOwner ∧ owner (step s t) = newOwner).
Proof.
  step_cases t; try (by left).
  right. split; [cbn; lia|]. by eexists.
Qed.

(** The pause flag changes only in a [pause] or [unpause] sent by the
    owner, and then it flips. *)
Lemma paused_step s t :
  paused (step s t) = paused s ∨
  (msg_sender (fst t) = owner s ∧ (snd t = CallPause ∨ snd t = CallUnpause) ∧
   paused (step s t) = negb (paused s)).
Proof.
  step_cases t; try (by left); right; cbn; (split; [lia|]); split; auto;
    by repeat match goal with H : paused s = _ |- _ => rewrite H end.
Qed.

(** The last-submission time of [a] changes only in a submission sent by
    [a]. *)
Lemma lastSubmissionTime_step s t a :
  submits_as a t = false →
  lastSubmissionTime_at (step s t) a = lastSubmissionTime_at s a.
Proof.
  intros Hother. step_cases t; try done.
  unfold lastSubmissionTime_at; cbn. apply mget_insert_ne.
  unfold submits_as in Hother; cbn in Hother. lia.
Qed.

End Frames.

(** ** Batch lifecycle *)

Section BatchLifecycle.
Context {host : Host}.
Implicit Types (s : State) (tx : Tx) (trace : list (Tx * Call)).

(** C7. [closeBatch(id)] sent by the owner reverts with [InvalidBatchId]
    exactly when [id] is 0, above the batch counter, or already closed;
    otherwise it succeeds and marks the batch closed, whether or not [id] is
    the current batch.  Closing is one-way: after a successful close, and
    after any further transactions, the batch is still closed and a
    [closeBatch] on the same id sent by the owner reverts with
    [InvalidBatchId]. *)
Theorem closeBatch_one_way s tx b :
  msg_sender tx = owner s →
  (execute s tx (CallCloseBatch b) = Reverted InvalidBatchId ↔
     b = 0 ∨ currentBatchId s < b ∨ batchClosed_at s b = true) ∧
  (b ≠ 0 → b ≤ currentBatchId s → batchClosed_at s b = false →
     execute s tx (CallCloseBatch b) = Success (set_batchClosed b true s) [BatchClosed b] ∧
     batchClosed_at (set_batchClosed b true s) b = true) ∧
  (∀ s1 evs, execute s tx (CallCloseBatch b) = Success s1 evs →
     ∀ trace tx',
       batchClosed_at (run s1 trace) b = true ∧
       (msg_sender tx' = owner (run s1 trace) →
        execute (run s1 trace) tx' (CallCloseBatch b) = Reverted InvalidBatchId)).
Proof.
  intros Hown. rewrite execute_closeBatch, Hown, Z.eqb_refl. cbn [negb].
  split; [|split].
  - destruct (b =? 0) eqn:E0; cbn [orb].
    { split; [left; lia | done]. }
    destruct (currentBatchId s <? b) eqn:E1; cbn [orb].
    { split; [right; left; lia | done]. }
    destruct (batchClosed_at s b) eqn:E2.
    { split; [by right; right | done]. }
    split; [done|]. intros [?|[?|?]]; [lia | lia | done].
  - intros Hb0 Hle Hopen.
    replace (b =? 0) with false by lia. replace (currentBatchId s <? b) with false by lia.
    rewrite Hopen. cbn [orb]. split; [done|].
    unfold batchClosed_at, set_batchClosed; cbn. apply mget_insert_eq.
  - intros s1 evs Hexec trace tx'.
    assert (batchClosed_at s1 b = true) as Hclosed.
    { destruct ((b =? 0) || (currentBatchId s <? b) || batchClosed_at s b); [done|].
      inversion Hexec; subst. unfold batchClosed_at, set_batchClosed; cbn.
      apply mget_insert_eq. }
    pose proof (batchClosed_run s1 trace b Hclosed) as Hrun.
    split; [done|]. intros Hown'.
    rewrite execute_closeBatch, Hown', Z.eqb_refl, Hrun. cbn [negb].
    by rewrite !orb_true_r.
Qed.

(** C9. [encryptedData] has one writer: a transaction either leaves the
    whole mapping as it was or is a successful [submitEncryptedData], which
    stores the value in the slot of the current batch, found open.  So a
    slot that changes is the slot of the current, open batch; and once a
    batch is closed it stays closed and its stored ciphertext is the same
    after every run of transactions. *)
Theorem closed_batch_ciphertext_frozen :
  (∀ s tx c,
     encryptedData (step s (tx, c)) = encryptedData s ∨
     ∃ v, c = CallSubmitEncryptedData v ∧
          batchClosed_at s (currentBatchId s) = false ∧
          encryptedData (step s (tx, c)) = <[currentBatchId s := v]> (encryptedData s)) ∧
  (∀ s tx c b,
     encryptedData (step s (tx, c)) !! b ≠ encryptedData s !! b →
     b = currentBatchId s ∧ batchClosed_at s b = false ∧
     ∃ v evs, c = CallSubmitEncryptedData v ∧
              execute s tx c = Success (step s (tx, c)) evs ∧
              encryptedData_at (step s (tx, c)) b = v) ∧
  (∀ s trace b,
     batchClosed_at s b = true →
     batchClosed_at (run s trace) b = true ∧
     encryptedData (run s trace) !! b = encryptedData s !! b ∧
     encryptedData_at (run s trace) b = encryptedData_at s b).
Proof.
  split; [|split].
  - intros s tx c. apply (encryptedData_write s (tx, c)).
  - intros s tx c b Hne.
    destruct (encryptedData_step s (tx, c) b) as [?|(-> & Hopen & v & evs & Hc & Hex & Hv)];
      [done|].
    repeat split; [done|]. exists v, evs. repeat split; [done..|].
    unfold encryptedData_at. by apply mget_lookup.
  - intros s trace b Hb.
    pose proof (closed_slot_run s trace b Hb) as Hslot.
    repeat split; [by apply batchClosed_run | done |].
    unfold encryptedData_at, mget. by rewrite Hslot.
Qed.

End BatchLifecycle.

(** ** Administration *)

Section Administration.
Context {host : Host}.
Implicit Types (s : State) (tx : Tx) (trace : list (Tx * Call)).

Lemma owner_only_gate s tx c :
  owner_only c = true → msg_sender tx ≠ owner s → execute s tx c = Reverted NotOwner.
Proof.
  intros Hc Hne. destruct c; try discriminate; autorewrite with exec;
    by replace (msg_sender tx =? owner s) with false by lia.
Qed.

(** C8. [pause] and [unpause] are owner-only.  Sent by the owner, [pause]
    reverts (with the contract's [PausedContract] error) when the contract
    is paused and otherwise sets the flag; [unpause] reverts (with the same
    [PausedContract] error) when the contract is not paused and otherwise
    clears the flag.  Every successful [pause] or [unpause] flips the flag:
    after a successful [pause] the contract is paused, after a successful
    [unpause] it is not.  No other transaction changes the flag, and every
    change of the flag flips it. *)
Theorem pause_unpause_two_states s tx :
  (msg_sender tx ≠ owner s →
     execute s tx CallPause = Reverted NotOwner ∧
     execute s tx CallUnpause = Reverted NotOwner) ∧
  (msg_sender tx = owner s →
     execute s tx CallPause =
       (if paused s then Reverted PausedContract
        else Success (set_paused true s) [Paused (msg_sender tx)]) ∧
     execute s tx CallUnpause =
       (if paused s then Success (set_paused false s) [Unpaused (msg_sender tx)]
        else Reverted PausedContract)) ∧
  (∀ s' evs, execute s tx CallPause = Success s' evs →
     paused s = false ∧ paused s' = true) ∧
  (∀ s' evs, execute s tx CallUnpause = Success s' evs →
     paused s = true ∧ paused s' = false) ∧
  (∀ c, paused (step s (tx, c)) ≠ paused s →
     msg_sender tx = owner s ∧ (c = CallPause ∨ c = CallUnpause) ∧
     paused (step s (tx, c)) = negb (paused s)).
Proof.
  split; [|split; [|split; [|split]]].
  - intros Hne. split; by apply owner_only_gate.
  - intros Hown. rewrite execute_pause, execute_unpause, Hown, Z.eqb_refl. cbn [negb].
    split; [done|]. by destruct (paused s).
  - intros s' evs. rewrite execute_pause. split_tests. by intros [= <- _].
  - intros s' evs. rewrite execute_unpause. split_tests. by intros [= <- _].
  - intros c Hne. by destruct (paused_step s (tx, c)) as [?|?].
Qed.

(** C10 (as the code has it). [transferOwnership(newOwner)] sent by the
    owner succeeds for every [newOwner] (no check on the argument: the zero
    address and the current owner are accepted) and stores [newOwner] as
    the owner at once.  From then on every owner-only call sent by anyone
    other than [newOwner] reverts with [NotOwner]: when [newOwner] is not
    the previous owner, the previous owner has lost every owner-only right
    in that one step; a transfer to oneself changes nothing in the storage
    and the owner keeps every right.  No run of transactions sent by
    principals other than [newOwner] changes the owner: a previous owner
    who is not [newOwner] cannot undo the transfer. *)
Theorem transferOwnership_unchecked s tx newOwner :
  msg_sender tx = owner s →
  execute s tx (CallTransferOwnership newOwner) =
    Success (set_owner newOwner s) [OwnershipTransferred (owner s) newOwner] ∧
  owner (step s (tx, CallTransferOwnership newOwner)) = newOwner ∧
  (∀ tx' c, owner_only c = true → msg_sender tx' ≠ newOwner →
     execute (step s (tx, CallTransferOwnership newOwner)) tx' c = Reverted NotOwner) ∧
  (newOwner ≠ owner s →
   ∀ tx' c, owner_only c = true → msg_sender tx' = owner s →
     execute (step s (tx, CallTransferOwnership newOwner)) tx' c = Reverted NotOwner) ∧
  (newOwner = owner s →
   step s (tx, CallTransferOwnership newOwner) = s ∧
   ∀ tx' c, msg_sender tx' = owner s →
     execute (step s (tx, CallTransferOwnership newOwner)) tx' c ≠ Reverted NotOwner) ∧
  (∀ trace, Forall (λ t, msg_sender (fst t) ≠ newOwner) trace →
     owner (run (step s (tx, CallTransferOwnership newOwner)) trace) = newOwner).
Proof.
  intros Hown.
  assert (execute s tx (CallTransferOwnership newOwner) =
          Success (set_owner newOwner s) [OwnershipTransferred (owner s) newOwner]) as Hex.
  { by rewrite execute_transferOwnership, Hown, Z.eqb_refl. }
  unfold step; cbn [fst snd]. rewrite Hex; cbn [state_after].
  split; [done|]. split; [done|]. split; [|split; [|split]].
  - intros tx' c Hc Hne. by apply owner_only_gate.
  - intros Hne tx' c Hc Hprev. apply owner_only_gate; [done|]. cbn. congruence.
  - intros ->. assert (set_owner (owner s) s = s) as -> by (by destruct s).
    split; [done|]. intros tx' c Hprev Hrev.
    assert (owner_only c = true → execute s tx' c ≠ Reverted NotOwner) as Hgate.
    { intros _. clear Hrev. destruct c; autorewrite with exec; cbn zeta;
        rewrite ?Hprev, ?Z.eqb_refl; cbn [negb]; by split_tests. }
    destruct (owner_only c) eqn:Hc; [by apply Hgate|].
    destruct c; try discriminate; revert Hrev; autorewrite with exec; cbn zeta;
      by split_tests.
  - intros trace Htrace.
    apply (run_preserves (λ s', owner s' = newOwner) (λ t, msg_sender (fst t) ≠ newOwner));
      [|done..].
    intros s' t Hne Hs'. destruct (owner_step s' t) as [->|[Hsender _]]; [done|congruence].
Qed.

End Administration.

(** ** The decryption callback *)

Section Callback.
Context {host : Host}.
Implicit Types (s : State) (tx : Tx) (t : Tx * Call) (trace : list (Tx * Call)).

(** The replay check comes first: on a processed request the callback
    reverts with [ReplayAttempt] whatever the hashes and the proof. *)
Lemma processed_replay s tx r ct pf :
  processed (decryptionContexts_at s r) = true →
  execute s tx (CallMyCallback r ct pf) = Reverted ReplayAttempt.
Proof. intros H. rewrite execute_myCallback. cbn zeta. by rewrite H. Qed.

(** [processed] is never cleared, unless the oracle hands out the id again. *)
Lemma processed_step s t r :
  assigns_request r t = false →
  processed (decryptionContexts_at s r) = true →
  processed (decryptionContexts_at (step s t) r) = true.
Proof.
  intros Hfresh Hp. step_cases t; try done;
    unfold decryptionContexts_at in *; cbn; rewrite mget_insert; case_decide; try done.
  subst. unfold assigns_request in Hfresh; cbn in Hfresh.
  match goal with H : oracle_reply _ = Some _ |- _ => rewrite H in Hfresh end.
  lia.
Qed.

(** C1. A request id is finalized at most once.  When a call of the
    callback for [r] succeeds, the request was unprocessed before and is
    processed after; and after any further transactions in which the oracle
    does not hand out [r] again, every call of the callback for [r] reverts
    with [ReplayAttempt], for every cleartext and proof and whatever the
    ciphertexts have become. *)
Theorem callback_finalizes_once s tx r ct pf s1 evs :
  execute s tx (CallMyCallback r ct pf) = Success s1 evs →
  processed (decryptionContexts_at s r) = false ∧
  processed (decryptionContexts_at s1 r) = true ∧
  ∀ trace, Forall (λ t, assigns_request r t = false) trace →
    ∀ tx' ct' pf',
      execute (run s1 trace) tx' (CallMyCallback r ct' pf') = Reverted ReplayAttempt.
Proof.
  rewrite execute_myCallback. cbn zeta. intros Hex.
  destruct (processed (decryptionContexts_at s r)) eqn:Hp; [done|].
  assert (processed (decryptionContexts_at s1 r) = true) as Hp1.
  { revert Hex. split_tests. intros [= <- _].
    unfold decryptionContexts_at, set_decryptionContexts. cbn [decryptionContexts].
    by rewrite mget_insert_eq. }
  split; [done|]. split; [done|].
  intros trace Hfresh tx' ct' pf'. apply processed_replay.
  apply (run_preserves (λ s', processed (decryptionContexts_at s' r) = true)
           (λ t, assigns_request r t = false)); [|done..].
  intros s' t ? ?. by apply processed_step.
Qed.

(** C3 (as the code has it). For a request id with no stored request the
    callback does not revert with [ReplayAttempt]: the replay check reads
    the zero context and passes.  The callback then compares the hash of
    the handle of batch 0 with the zero hash, and reverts with
    [StateMismatch] whenever that hash is not zero. *)
Theorem unknown_request_passes_replay_check s r :
  decryptionContexts s !! r = None →
  ∀ tx ct pf,
    execute s tx (CallMyCallback r ct pf) ≠ Reverted ReplayAttempt ∧
    (_hashCiphertexts [FHE_toBytes32 (encryptedData_at s 0)] ≠ 0 →
     execute s tx (CallMyCallback r ct pf) = Reverted StateMismatch).
Proof.
  intros Hnone tx ct pf. rewrite execute_myCallback. cbn zeta.
  unfold decryptionContexts_at. rewrite (mget_absent _ _ _ Hnone). cbn.
  split.
  - split_tests.
  - intros Hh. by replace (_ =? 0) with false by lia.
Qed.

End Callback.

(** ** The state hash *)

Section StateHash.
Context {host : Host}.
Implicit Types (s : State) (tx : Tx) (t : Tx * Call) (trace : list (Tx * Call)).

Lemma requests_bound_deploy tx0 : requests_bound (deploy tx0).
Proof.
  split; [done|]. intros r ctx Hl. cbn in Hl. by rewrite lookup_empty in Hl.
Qed.

Lemma requests_bound_step s t : requests_bound s → requests_bound (step s t).
Proof.
  intros [Hcur Hinv]. step_cases t; try done; (split; [cbn; lia|]);
    intros r' ctx' Hl; cbn in Hl;
    unfold batchClosed_at, encryptedData_at in *;
    cbn [batchClosed encryptedData currentBatchId set_owner set_isProvider
         set_paused set_cooldownSeconds set_currentBatchId set_batchClosed
         set_lastSubmissionTime set_lastDecryptionRequestTime
         set_decryptionContexts set_encryptedData];
    try (by eapply Hinv).
  - (* openNewBatch *)
    destruct (Hinv _ _ Hl) as [[Hc|Hc] Hh]; (split; [|done]); [by left | right; lia].
  - (* closeBatch *)
    destruct (Hinv _ _ Hl) as [Hc Hh]. split; [|done].
    destruct Hc as [Hc|Hc]; [left | by right].
    rewrite mget_insert. by case_decide.
  - (* submitEncryptedData *)
    destruct (Hinv _ _ Hl) as [Hc Hh]. split; [done|].
    rewrite mget_insert_ne; [done|]. intros Heq. rewrite <- Heq in Hc.
    destruct Hc as [Hc|Hc]; [congruence | lia].
  - (* requestDecryptionForBatch *)
    rewrite lookup_insert in Hl. case_decide.
    + inversion Hl; subst; cbn. split; [|done]. left.
      by destruct (mget false (batchClosed s) batch).
    + by eapply Hinv.
  - (* myCallback *)
    rewrite lookup_insert in Hl. case_decide.
    + inversion Hl; subst; cbn. unfold decryptionContexts_at, mget in *.
      destruct (decryptionContexts s !! r') as [ctx|] eqn:Hr; cbn in *.
      * by apply (Hinv r' ctx).
      * split; [right; lia|]. lia.
    + by eapply Hinv.
Qed.

Lemma requests_bound_reachable s : reachable s → requests_bound s.
Proof.
  intros (tx0 & trace & ->).
  apply (run_preserves requests_bound (λ _, True)).
  - intros. by apply requests_bound_step.
  - by apply Forall_true.
  - apply requests_bound_deploy.
Qed.

(** C2. A successful [requestDecryptionForBatch] stores, under the id the
    oracle assigned, the batch id, [processed = false] and as state hash
    the [keccak256] of the ABI encoding of the one-element array holding
    the batch's ciphertext handle and of the contract's own address.  The
    callback recomputes that hash over the ciphertext the stored batch id
    holds now and, for a stored request that is not yet processed, reverts
    with [StateMismatch] exactly when the recomputed hash differs from the
    stored one.  In every reachable state the stored hash of every stored
    request is the hash of what its batch holds, and the callback reverts
    with [StateMismatch] exactly when the two hashes differ. *)
Theorem stateHash_captured_and_checked :
  (∀ s tx b s1 evs,
     execute s tx (CallRequestDecryptionForBatch b) = Success s1 evs →
     ∃ requestId,
       oracle_reply tx = Some requestId ∧
       decryptionContexts s1 !! requestId =
         Some {| batchId := b;
                 stateHash :=
                   keccak256 (abi_encode [FHE_toBytes32 (encryptedData_at s b)] this);
                 processed := false |}) ∧
  (∀ s r ctx,
     decryptionContexts s !! r = Some ctx → processed ctx = false →
     ∀ tx ct pf,
       execute s tx (CallMyCallback r ct pf) = Reverted StateMismatch ↔
       keccak256 (abi_encode [FHE_toBytes32 (encryptedData_at s (batchId ctx))] this)
         ≠ stateHash ctx) ∧
  (∀ s r ctx,
     reachable s → decryptionContexts s !! r = Some ctx →
     stateHash ctx =
       keccak256 (abi_encode [FHE_toBytes32 (encryptedData_at s (batchId ctx))] this) ∧
     ∀ tx ct pf,
       execute s tx (CallMyCallback r ct pf) = Reverted StateMismatch ↔
       keccak256 (abi_encode [FHE_toBytes32 (encryptedData_at s (batchId ctx))] this)
         ≠ stateHash ctx).
Proof.
  split; [|split].
  - intros s tx b s1 evs. rewrite execute_requestDecryptionForBatch. cbn zeta.
    split_tests. intros [= <- _].
    eexists; split; [done|]. cbn. apply lookup_insert_eq.
  - intros s r ctx Hl Hp tx ct pf. rewrite execute_myCallback. cbn zeta.
    unfold decryptionContexts_at. rewrite (mget_lookup _ _ _ _ Hl), Hp.
    fold (_hashCiphertexts [FHE_toBytes32 (encryptedData_at s (batchId ctx))]).
    destruct (_ =? stateHash ctx) eqn:E; cbn [negb].
    + split; [|lia]. split_tests.
    + split; [lia|done].
  - intros s r ctx Hreach Hl.
    destruct (requests_bound_reachable s Hreach) as [_ Hinv].
    destruct (Hinv r ctx Hl) as [_ Hh]. split; [done|].
    intros tx ct pf. rewrite execute_myCallback. cbn zeta.
    unfold decryptionContexts_at. rewrite (mget_lookup _ _ _ _ Hl).
    fold (_hashCiphertexts [FHE_toBytes32 (encryptedData_at s (batchId ctx))]).
    rewrite <- Hh, Z.eqb_refl. cbn [negb].
    split; [|done]. split_tests.
Qed.

End StateHash.

(** ** Atomicity *)

Section Atomicity.
Context {host : Host}.
Implicit Types (s : State) (tx : Tx) (m : Machine).

(** Every revert in a body, except one raised by the external oracle call
    in [requestDecryptionForBatch], happens before the first write and the
    first event. *)
Lemma body_checks_first tx c m e m' :
  body tx c m = (inl e, m') → e ≠ OracleRequestReverted → m' = m.
Proof.
  destruct m as [s l q]. destruct c; unfold_body; cbn;
    repeat (split_test; cbn); intros [= <- <-]; done.
Qed.

Lemma myCallback_checks_first tx r ct pf m e m' :
  myCallback tx r ct pf m = (inl e, m') →
  m' = m ∧ (e = ReplayAttempt ∨ e = StateMismatch ∨ e = InvalidProof ∨ e = AbiDecodeReverted).
Proof.
  destruct m as [s l q]. unfold_body; cbn;
    repeat (split_test; cbn); intros [= <- <-]; auto.
Qed.

(** C4. A transaction that reverts leaves the storage it started from.  In
    the bodies themselves every error other than a revert of the external
    oracle call is raised before any write and any event, and in the
    callback every failure (replay check, state-hash check, proof
    verification, decoding) is: the machine at the revert is the machine
    the body started with. *)
Theorem failed_call_changes_nothing :
  (∀ s tx c e, execute s tx c = Reverted e → step s (tx, c) = s) ∧
  (∀ tx c m e m',
     body tx c m = (inl e, m') → e ≠ OracleRequestReverted → m' = m) ∧
  (∀ tx r ct pf m e m',
     myCallback tx r ct pf m = (inl e, m') →
     m' = m ∧
     (e = ReplayAttempt ∨ e = StateMismatch ∨ e = InvalidProof ∨ e = AbiDecodeReverted)).
Proof.
  split; [|split].
  - intros s tx c e Hex. unfold step; cbn [fst snd]. by rewrite Hex.
  - apply body_checks_first.
  - apply myCallback_checks_first.
Qed.

End Atomicity.

(** ** Throttled submission and decryption requests *)

Section Throttle.
Context {host : Host}.
Implicit Types (s : State) (tx : Tx).

(** C6 (as the code has it). [submitEncryptedData] sent by a provider while
    the contract is not paused: with [ready] the sum of the caller's last
    submission time and [cooldownSeconds],
    - it reverts with [CooldownActive] exactly when [ready] fits in a
      [uint256] and [block.timestamp < ready]; when the sum overflows, the
      checked addition reverts with [Panic 0x11] instead;
    - so the caller's next submission, whatever others send in between, is
      not throttled (neither [CooldownActive] nor the panic) when it comes
      at least [cooldownSeconds] after the successful one;
    - not throttled, it reverts with [BatchClosedOrInvalid] exactly when the
      current batch is closed;
    - otherwise it succeeds, records [block.timestamp] as the caller's last
      submission time, overwrites the slot of the current batch with the
      value and emits [DataSubmitted(caller, currentBatchId, value)]. *)
Theorem submitEncryptedData_throttle s tx v :
  isProvider_at s (msg_sender tx) = true →
  paused s = false →
  let ready := lastSubmissionTime_at s (msg_sender tx) + cooldownSeconds s in
  let s' := set_encryptedData (currentBatchId s) v
              (set_lastSubmissionTime (msg_sender tx) (block_timestamp tx) s) in
  (execute s tx (CallSubmitEncryptedData v) = Reverted CooldownActive ↔
     ready ≤ MAX_UINT256 ∧ block_timestamp tx < ready) ∧
  (execute s tx (CallSubmitEncryptedData v) = Reverted (Panic 17) ↔
     MAX_UINT256 < ready) ∧
  (execute s tx (CallSubmitEncryptedData v) = Reverted BatchClosedOrInvalid ↔
     ready ≤ MAX_UINT256 ∧ ready ≤ block_timestamp tx ∧
     batchClosed_at s (currentBatchId s) = true) ∧
  (ready ≤ MAX_UINT256 → ready ≤ block_timestamp tx →
   batchClosed_at s (currentBatchId s) = false →
     execute s tx (CallSubmitEncryptedData v) =
       Success s' [DataSubmitted (msg_sender tx) (currentBatchId s) v] ∧
     lastSubmissionTime_at s' (msg_sender tx) = block_timestamp tx ∧
     encryptedData_at s' (currentBatchId s) = v) ∧
  (∀ s1 evs trace tx2 v2,
     execute s tx (CallSubmitEncryptedData v) = Success s1 evs →
     Forall (λ t, submits_as (msg_sender tx) t = false) trace →
     msg_sender tx2 = msg_sender tx →
     block_timestamp tx2 ≤ MAX_UINT256 →
     block_timestamp tx + cooldownSeconds (run s1 trace) ≤ block_timestamp tx2 →
     execute (run s1 trace) tx2 (CallSubmitEncryptedData v2) ≠ Reverted CooldownActive ∧
     execute (run s1 trace) tx2 (CallSubmitEncryptedData v2) ≠ Reverted (Panic 17)).
Proof.
  intros Hprov Hpaused ready s'.
  assert (∀ s0 tx0 v0,
    isProvider_at s0 (msg_sender tx0) = true → paused s0 = false →
    execute s0 tx0 (CallSubmitEncryptedData v0) =
    let ready := lastSubmissionTime_at s0 (msg_sender tx0) + cooldownSeconds s0 in
    if MAX_UINT256 <? ready then Reverted (Panic 17)
    else if block_timestamp tx0 <? ready then Reverted CooldownActive
    else if batchClosed_at s0 (currentBatchId s0) then Reverted BatchClosedOrInvalid
    else Success (set_encryptedData (currentBatchId s0) v0
                    (set_lastSubmissionTime (msg_sender tx0) (block_timestamp tx0) s0))
           [DataSubmitted (msg_sender tx0) (currentBatchId s0) v0]) as Hform.
  { intros s0 tx0 v0 H1 H2. rewrite execute_submitEncryptedData. cbn zeta.
    by rewrite H1, H2. }
  rewrite (Hform s tx v Hprov Hpaused). cbn zeta. fold ready.
  assert (lastSubmissionTime_at s' (msg_sender tx) = block_timestamp tx) as Hlast.
  { unfold lastSubmissionTime_at, s'; cbn. apply mget_insert_eq. }
  assert (encryptedData_at s' (currentBatchId s) = v) as Hslot.
  { unfold encryptedData_at, s'; cbn. apply mget_insert_eq. }
  split; [|split; [|split; [|split]]].
  - destruct (MAX_UINT256 <? ready) eqn:E1; [split; [done|lia]|].
    destruct (block_timestamp tx <? ready) eqn:E2; [split; [lia|done]|].
    destruct (batchClosed_at s (currentBatchId s)); (split; [done|lia]).
  - destruct (MAX_UINT256 <? ready) eqn:E1; [split; [lia|done]|].
    destruct (block_timestamp tx <? ready) eqn:E2; [split; [done|lia]|].
    destruct (batchClosed_at s (currentBatchId s)); (split; [done|lia]).
  - destruct (MAX_UINT256 <? ready) eqn:E1; [split; [done|lia]|].
    destruct (block_timestamp tx <? ready) eqn:E2; [split; [done|lia]|].
    destruct (batchClosed_at s (currentBatchId s)) eqn:E3.
    + split; [intros _; repeat split; lia | done].
    + split; [done | by intros (_ & _ & ?)].
  - intros H1 H2 H3. rewrite H3.
    replace (MAX_UINT256 <? ready) with false by lia.
    by replace (block_timestamp tx <? ready) with false by lia.
  - intros s1 evs trace tx2 v2 Hex Hquiet Hsame Hmax Hsep.
  assert (s1 = s') as ->.
  { revert Hex. split_tests. by intros [= <- _]. }
  assert (lastSubmissionTime_at (run s' trace) (msg_sender tx) = block_timestamp tx) as Hkept.
  { apply (run_preserves
             (λ s0, lastSubmissionTime_at s0 (msg_sender tx) = block_timestamp tx)
             (λ t, submits_as (msg_sender tx) t = false)); [|done..].
    intros s0 t Hother Hs0. by rewrite lastSubmissionTime_step. }
  rewrite execute_submitEncryptedData. cbn zeta. rewrite Hsame, Hkept.
  replace (MAX_UINT256 <? block_timestamp tx + cooldownSeconds (run s' trace))
    with false by lia.
  replace (block_timestamp tx2 <? block_timestamp tx + cooldownSeconds (run s' trace))
    with false by lia.
  by split_tests.
Qed.

(** C5 (as the code has it). [requestDecryptionForBatch] sent by a provider
    while the contract is not paused: with [ready] the sum of the caller's
    last decryption-request time and [cooldownSeconds],
    - it reverts with [CooldownActive] when [ready] fits in a [uint256] and
      [block.timestamp < ready]; when the sum overflows, the checked
      addition reverts with [Panic 0x11] instead;
    - not throttled, it reverts with [InvalidBatchId] when the batch id is
      0, above the batch counter, or names a batch that is still open;
    - otherwise, the oracle assigning [requestId], it records
      [block.timestamp] as the caller's last request time, sends the oracle
      one request, for the one-element array holding the ciphertext handle
      of the batch and with [myCallback] as the callback, stores
      [{batchId, stateHash, processed = false}] under [requestId] and
      emits [DecryptionRequested]; a call that reverts sends the oracle
      nothing;
    - the outcome does not read or write the last-submission times. *)
Theorem requestDecryption_gate s tx b :
  isProvider_at s (msg_sender tx) = true →
  paused s = false →
  let ready := lastDecryptionRequestTime_at s (msg_sender tx) + cooldownSeconds s in
  (ready ≤ MAX_UINT256 → block_timestamp tx < ready →
     execute s tx (CallRequestDecryptionForBatch b) = Reverted CooldownActive) ∧
  (MAX_UINT256 < ready →
     execute s tx (CallRequestDecryptionForBatch b) = Reverted (Panic 17)) ∧
  (ready ≤ MAX_UINT256 → ready ≤ block_timestamp tx →
   b = 0 ∨ currentBatchId s < b ∨ batchClosed_at s b = false →
     execute s tx (CallRequestDecryptionForBatch b) = Reverted InvalidBatchId) ∧
  (ready ≤ MAX_UINT256 → ready ≤ block_timestamp tx →
   b ≠ 0 → b ≤ currentBatchId s → batchClosed_at s b = true →
   ∀ requestId, oracle_reply tx = Some requestId →
     let ctx := {| batchId := b;
                   stateHash := _hashCiphertexts [FHE_toBytes32 (encryptedData_at s b)];
                   processed := false |} in
     let s' := set_decryptionContexts requestId ctx
                 (set_lastDecryptionRequestTime (msg_sender tx) (block_timestamp tx) s) in
     execute s tx (CallRequestDecryptionForBatch b) =
       Success s' [DecryptionRequested requestId b] ∧
     oracle_requests s tx (CallRequestDecryptionForBatch b) =
       [ {| request_handles := [FHE_toBytes32 (encryptedData_at s b)];
            request_callback := myCallback_selector;
            request_id := requestId |} ] ∧
     lastDecryptionRequestTime_at s' (msg_sender tx) = block_timestamp tx ∧
     decryptionContexts s' !! requestId = Some ctx ∧
     lastSubmissionTime s' = lastSubmissionTime s) ∧
  (∀ e, execute s tx (CallRequestDecryptionForBatch b) = Reverted e →
     oracle_requests s tx (CallRequestDecryptionForBatch b) = []) ∧
  (∀ who when,
     execute (set_lastSubmissionTime who when s) tx (CallRequestDecryptionForBatch b) =
     match execute s tx (CallRequestDecryptionForBatch b) with
     | Success s1 evs => Success (set_lastSubmissionTime who when s1) evs
     | Reverted e => Reverted e
     end).
Proof.
  intros Hprov Hpaused ready.
  rewrite oracle_requests_closed_form.
  rewrite execute_requestDecryptionForBatch. cbn zeta. fold ready.
  rewrite Hprov, Hpaused. cbn [negb].
  split; [|split; [|split; [|split; [|split]]]].
  - intros H1 H2. replace (MAX_UINT256 <? ready) with false by lia.
    by replace (block_timestamp tx <? ready) with true by lia.
  - intros H1. by replace (MAX_UINT256 <? ready) with true by lia.
  - intros H1 H2 Hbad. replace (MAX_UINT256 <? ready) with false by lia.
    replace (block_timestamp tx <? ready) with false by lia.
    destruct Hbad as [->|[Hb|Hb]]; [done| |].
    + replace (currentBatchId s <? b) with true by lia. by rewrite orb_true_r.
    + rewrite Hb. by rewrite orb_true_r.
  - intros H1 H2 Hb0 Hle Hclosed requestId Hreply.
    replace (MAX_UINT256 <? ready) with false by lia.
    replace (block_timestamp tx <? ready) with false by lia.
    replace (b =? 0) with false by lia.
    replace (currentBatchId s <? b) with false by lia.
    rewrite Hclosed, Hreply. cbn [negb orb].
    split; [done|]. split; [done|]. split; [|split; [|done]].
    + unfold lastDecryptionRequestTime_at; cbn. apply mget_insert_eq.
    + cbn. apply lookup_insert_eq.
  - intros e. by split_tests.
  - intros who when. rewrite execute_requestDecryptionForBatch. cbn zeta.
    change (isProvider_at (set_lastSubmissionTime who when s) (msg_sender tx))
      with (isProvider_at s (msg_sender tx)).
    change (lastDecryptionRequestTime_at (set_lastSubmissionTime who when s) (msg_sender tx))
      with (lastDecryptionRequestTime_at s (msg_sender tx)).
    change (batchClosed_at (set_lastSubmissionTime who when s) b)
      with (batchClosed_at s b).
    change (encryptedData_at (set_lastSubmissionTime who when s) b)
      with (encryptedData_at s b).
    cbn [paused cooldownSeconds currentBatchId set_lastSubmissionTime].
    rewrite Hprov, Hpaused. cbn [negb]. fold ready.
    by split_tests.
Qed.

End Throttle.

(** ** The theorems at work on the concrete run *)

Lemma state_requested_reachable : @reachable sample_host state_requested.
Proof. by exists (tx_at 1 900), scenario_requested. Qed.

Lemma state_huge_cooldown_reachable : @reachable sample_host state_huge_cooldown.
Proof. by exists (tx_at 1 900), scenario_huge_cooldown. Qed.

(** The constructor: the deployer owns the contract, batch 1 is current and
    the cooldown is one minute. *)
Example deploy_storage :
  owner state_deployed = 1 ∧ currentBatchId state_deployed = 1 ∧
  cooldownSeconds state_deployed = 60 ∧ paused state_deployed = false.
Proof. done. Qed.

(** The end of the scenario of the specification: the completion event
    carries the request id, batch 1 and the decoded value. *)
Example scenario_completion_event :
  @execute sample_host state_requested (tx_at 9 1400)
    (CallMyCallback 5 cleartext42 some_proof)
  = Success state_finalized [DecryptionCompleted 5 1 42].
Proof. vm_compute. reflexivity. Qed.

(** A request for a batch that is still open is refused. *)
Example open_batch_not_decrypted :
  @execute sample_host state_two_batches (tx_oracle 1 2000 7) (CallAddProvider 2)
    = Success (set_isProvider 2 true state_two_batches) [ProviderAdded 2] ∧
  @execute sample_host (set_isProvider 2 true state_two_batches) (tx_oracle 2 2000 7)
    (CallRequestDecryptionForBatch 1) = Reverted InvalidBatchId.
Proof. split; vm_compute; reflexivity. Qed.

(** When the oracle call reverts, the body has already written the caller's
    request time; the transaction boundary drops that write. *)
Example oracle_revert_rolled_back :
  let m := @requestDecryptionForBatch sample_host (tx_at 2 1300) 1
             (MkMachine state_closed [] []) in
  fst m = inl OracleRequestReverted ∧
  lastDecryptionRequestTime_at (storage (snd m)) 2 = 1300 ∧
  lastDecryptionRequestTime_at state_closed 2 = 0 ∧
  @step sample_host state_closed (tx_at 2 1300, CallRequestDecryptionForBatch 1)
    = state_closed.
Proof. repeat split; vm_compute; reflexivity. Qed.

(** Why the ids of the oracle must be fresh: were the oracle to hand out id 5
    a second time, the new request would replace the processed context and
    the callback for id 5 would be accepted again. *)
Example reissued_id_is_a_new_request :
  let s := @step sample_host state_finalized
             (tx_oracle 2 1500 5, CallRequestDecryptionForBatch 1) in
  processed (decryptionContexts_at state_finalized 5) = true ∧
  processed (decryptionContexts_at s 5) = false ∧
  @execute sample_host s (tx_at 9 1600) (CallMyCallback 5 cleartext42 some_proof)
    ≠ Reverted ReplayAttempt.
Proof. repeat split; vm_compute; congruence. Qed.

(** The valid callback for request 5 succeeds; after a new batch and a new
    request (id 6), any callback for id 5 is a replay. *)
Lemma callback_finalizes_once_witness :
  @execute sample_host state_requested (tx_at 9 1400)
    (CallMyCallback 5 cleartext42 some_proof)
    = Success state_finalized [DecryptionCompleted 5 1 42] ∧
  @execute sample_host
    (@run sample_host state_finalized
       [ (tx_at 1 1500, CallOpenNewBatch);
         (tx_oracle 2 1600 6, CallRequestDecryptionForBatch 1) ])
    (tx_at 9 1700) (CallMyCallback 5 [] []) = Reverted ReplayAttempt.
Proof.
  assert (@execute sample_host state_requested (tx_at 9 1400)
            (CallMyCallback 5 cleartext42 some_proof)
          = Success state_finalized [DecryptionCompleted 5 1 42]) as Hex
    by (vm_compute; reflexivity).
  split; [exact Hex|].
  apply (@callback_finalizes_once sample_host _ _ _ _ _ _ _ Hex).
  repeat constructor.
Defined.

(** Request 5 of the concrete run holds the hash of handle 777 of batch 1. *)
Lemma stateHash_captured_and_checked_witness :
  decryptionContexts state_requested !! 5 =
    Some {| batchId := 1; stateHash := 547427; processed := false |} ∧
  547427 = @keccak256 sample_host (abi_encode [777] 12648430) ∧
  (@execute sample_host state_requested (tx_at 9 1400) (CallMyCallback 5 cleartext42 some_proof)
     = Reverted StateMismatch ↔
   @keccak256 sample_host (abi_encode [777] 12648430) ≠ 547427).
Proof.
  assert (decryptionContexts state_requested !! 5 =
            Some {| batchId := 1; stateHash := 547427; processed := false |}) as Hl
    by (vm_compute; reflexivity).
  destruct (@stateHash_captured_and_checked sample_host) as (_ & _ & H).
  destruct (H state_requested 5 _ state_requested_reachable Hl) as [Hh Hiff].
  split; [exact Hl|]. split; [exact Hh|].
  exact (Hiff (tx_at 9 1400) cleartext42 some_proof).
Defined.

(** Request id 6 was never stored in the concrete run. *)
Lemma unknown_request_passes_replay_check_witness :
  decryptionContexts state_finalized !! 6 = None ∧
  @execute sample_host state_finalized (tx_at 9 1500)
    (CallMyCallback 6 cleartext42 some_proof) ≠ Reverted ReplayAttempt.
Proof.
  assert (decryptionContexts state_finalized !! 6 = None) as Hl
    by (vm_compute; reflexivity).
  split; [exact Hl|].
  exact (proj1 (@unknown_request_passes_replay_check sample_host state_finalized 6 Hl
                  (tx_at 9 1500) cleartext42 some_proof)).
Defined.

(** C3, counterexample: in the concrete run no request was ever stored under
    id 6, and the callback for id 6 reverts with [StateMismatch], not with
    [ReplayAttempt]. *)
Lemma unknown_request_state_mismatch :
  decryptionContexts state_finalized !! 6 = None ∧
  @execute sample_host state_finalized (tx_at 9 1500)
    (CallMyCallback 6 cleartext42 some_proof) = Reverted StateMismatch.
Proof. split; vm_compute; reflexivity. Qed.

(** A callback with an empty proof is rejected and changes nothing. *)
Lemma failed_call_changes_nothing_witness :
  @execute sample_host state_requested (tx_at 9 1400) (CallMyCallback 5 cleartext42 [])
    = Reverted InvalidProof ∧
  @step sample_host state_requested (tx_at 9 1400, CallMyCallback 5 cleartext42 [])
    = state_requested.
Proof.
  assert (@execute sample_host state_requested (tx_at 9 1400) (CallMyCallback 5 cleartext42 [])
          = Reverted InvalidProof) as Hex by (vm_compute; reflexivity).
  split; [exact Hex|].
  exact (proj1 (@failed_call_changes_nothing sample_host) _ _ _ _ Hex).
Defined.

(** The request of the concrete run, made at 1300 with the oracle assigning
    id 5. *)
Lemma requestDecryption_gate_witness :
  isProvider_at state_closed 2 = true ∧
  paused state_closed = false ∧
  @execute sample_host state_closed (tx_oracle 2 1300 5) (CallRequestDecryptionForBatch 1)
    = Success state_requested [DecryptionRequested 5 1] ∧
  @oracle_requests sample_host state_closed (tx_oracle 2 1300 5)
    (CallRequestDecryptionForBatch 1)
    = [ {| request_handles := [777]; request_callback := myCallback_selector;
           request_id := 5 |} ].
Proof.
  assert (isProvider_at state_closed 2 = true) as Hp by (vm_compute; reflexivity).
  assert (paused state_closed = false) as Hn by (vm_compute; reflexivity).
  split; [exact Hp|]. split; [exact Hn|].
  destruct (@requestDecryption_gate sample_host state_closed (tx_oracle 2 1300 5) 1 Hp Hn)
    as (_ & _ & _ & H & _).
  destruct (H ltac:(by vm_compute) ltac:(by vm_compute) ltac:(done) ltac:(by vm_compute)
              ltac:(vm_compute; reflexivity) 5 eq_refl) as (Hex & Hsent & _).
  split; [rewrite Hex; vm_compute; reflexivity | exact Hsent].
Defined.

(** C5, counterexample: in a reachable state provider 2 made its last request
    at 1300 and the cooldown is [2^256 - 1]; at time 1400 the cooldown has
    not elapsed, and the request reverts with [Panic 0x11], not with
    [CooldownActive]. *)
Lemma requestDecryption_overflow_panics :
  isProvider_at state_huge_cooldown 2 = true ∧
  paused state_huge_cooldown = false ∧
  block_timestamp (tx_oracle 2 1400 6) <
    lastDecryptionRequestTime_at state_huge_cooldown 2 + cooldownSeconds state_huge_cooldown ∧
  @execute sample_host state_huge_cooldown (tx_oracle 2 1400 6)
    (CallRequestDecryptionForBatch 1) = Reverted (Panic 17).
Proof. repeat split; vm_compute; reflexivity. Qed.

(** The submission of the concrete run, made at 1100. *)
Lemma submitEncryptedData_throttle_witness :
  isProvider_at state_provider 2 = true ∧
  paused state_provider = false ∧
  @execute sample_host state_provider (tx_at 2 1100) (CallSubmitEncryptedData 777)
    = Success
        (set_encryptedData 1 777 (set_lastSubmissionTime 2 1100 state_provider))
        [DataSubmitted 2 1 777].
Proof.
  assert (isProvider_at state_provider 2 = true) as Hp by (vm_compute; reflexivity).
  assert (paused state_provider = false) as Hn by (vm_compute; reflexivity).
  split; [exact Hp|]. split; [exact Hn|].
  destruct (@submitEncryptedData_throttle sample_host state_provider (tx_at 2 1100) 777 Hp Hn)
    as (_ & _ & _ & H & _).
  exact (proj1 (H ltac:(by vm_compute) ltac:(by vm_compute) ltac:(vm_compute; reflexivity))).
Defined.

(** C6, counterexample: in a reachable state provider 2 made its last
    submission at 1100 and the cooldown is [2^256 - 1]; at time 1400,
    [now < lastSubmission + cooldownSeconds] holds and the submission reverts
    with [Panic 0x11], not with [CooldownActive]. *)
Lemma submit_overflow_panics :
  isProvider_at state_huge_cooldown 2 = true ∧
  paused state_huge_cooldown = false ∧
  block_timestamp (tx_at 2 1400) <
    lastSubmissionTime_at state_huge_cooldown 2 + cooldownSeconds state_huge_cooldown ∧
  @execute sample_host state_huge_cooldown (tx_at 2 1400)
    (CallSubmitEncryptedData 888) = Reverted (Panic 17).
Proof. repeat split; vm_compute; reflexivity. Qed.

(** Batch 1 is closed while batch 2 is current; closing it again fails. *)
Lemma closeBatch_one_way_witness :
  msg_sender (tx_at 1 1500) = owner state_two_batches ∧
  @execute sample_host state_two_batches (tx_at 1 1500) (CallCloseBatch 1)
    = Success (set_batchClosed 1 true state_two_batches) [BatchClosed 1] ∧
  @execute sample_host
    (@run sample_host (set_batchClosed 1 true state_two_batches)
       [ (tx_at 1 1600, CallOpenNewBatch) ])
    (tx_at 1 1700) (CallCloseBatch 1) = Reverted InvalidBatchId.
Proof.
  assert (msg_sender (tx_at 1 1500) = owner state_two_batches) as Hown by reflexivity.
  destruct (@closeBatch_one_way sample_host state_two_batches (tx_at 1 1500) 1 Hown)
    as (_ & Hclose & Hagain).
  destruct (Hclose ltac:(done) ltac:(by vm_compute) ltac:(vm_compute; reflexivity))
    as [Hex _].
  split; [exact Hown|]. split; [exact Hex|].
  apply (Hagain _ _ Hex [ (tx_at 1 1600, CallOpenNewBatch) ] (tx_at 1 1700)).
  vm_compute. reflexivity.
Defined.

(** The owner pauses the running contract. *)
Lemma pause_unpause_two_states_witness :
  msg_sender (tx_at 1 1500) = owner state_requested ∧
  (@execute sample_host state_requested (tx_at 1 1500) CallPause
     = Success (set_paused true state_requested) [Paused 1] ∧
   @execute sample_host state_requested (tx_at 1 1500) CallUnpause
     = Reverted PausedContract) ∧
  paused state_requested = false ∧
  paused (set_paused true state_requested) = true.
Proof.
  assert (msg_sender (tx_at 1 1500) = owner state_requested) as Hown by reflexivity.
  destruct (@pause_unpause_two_states sample_host state_requested (tx_at 1 1500))
    as (_ & Hcalls & Hpause & _).
  split; [exact Hown|]. split; [exact (Hcalls Hown)|].
  exact (Hpause _ _ (proj1 (Hcalls Hown))).
Defined.

(** Batch 1 is closed: a new batch and a later submission leave its slot. *)
Lemma closed_batch_ciphertext_frozen_witness :
  batchClosed_at state_requested 1 = true ∧
  encryptedData_at
    (@run sample_host state_requested
       [ (tx_at 2 1500, CallSubmitEncryptedData 111);
         (tx_at 1 1600, CallOpenNewBatch);
         (tx_at 2 1700, CallSubmitEncryptedData 222) ]) 1
    = encryptedData_at state_requested 1.
Proof.
  assert (batchClosed_at state_requested 1 = true) as Hc by (vm_compute; reflexivity).
  split; [exact Hc|].
  exact (proj2 (proj2 (proj2 (proj2 (@closed_batch_ciphertext_frozen sample_host)) _ _ _ Hc))).
Defined.

(** C10, counterexample: owner 1 transfers the ownership to itself; the
    call succeeds, and the previous owner is not stripped of anything: it
    pauses the contract right after. *)
Lemma self_transfer_keeps_rights :
  msg_sender (tx_at 1 1500) = owner state_requested ∧
  @execute sample_host state_requested (tx_at 1 1500) (CallTransferOwnership 1)
    = Success state_requested [OwnershipTransferred 1 1] ∧
  @execute sample_host
    (@step sample_host state_requested (tx_at 1 1500, CallTransferOwnership 1))
    (tx_at 1 1600) CallPause
    = Success (set_paused true state_requested) [Paused 1].
Proof. repeat split; vm_compute; reflexivity. Qed.

(** The owner hands the contract to the zero address; the previous owner is
    then refused. *)
Lemma transferOwnership_unchecked_witness :
  msg_sender (tx_at 1 1500) = owner state_requested ∧
  owner (@step sample_host state_requested (tx_at 1 1500, CallTransferOwnership 0)) = 0 ∧
  @execute sample_host
    (@step sample_host state_requested (tx_at 1 1500, CallTransferOwnership 0))
    (tx_at 1 1600) (CallTransferOwnership 1) = Reverted NotOwner.
Proof.
  assert (msg_sender (tx_at 1 1500) = owner state_requested) as Hown by reflexivity.
  destruct (@transferOwnership_unchecked sample_host state_requested (tx_at 1 1500) 0 Hown)
    as (_ & Hnew & Hgate & _).
  split; [exact Hown|]. split; [exact Hnew|].
  apply Hgate; [reflexivity | by vm_compute].
Defined.

(** * Further properties of the contract *)

(** Case analysis of the transaction [(tx, c)] on the call [c]. *)
Ltac call_cases c :=
  unfold step; cbn [fst snd];
  destruct c; autorewrite with exec; cbn zeta;
  repeat (split_test; cbn [state_after negb orb andb]).

(** ** Access control *)

Section AccessControl.
Context {host : Host}.
Implicit Types (s : State) (tx : Tx) (t : Tx * Call) (trace : list (Tx * Call)).

(** X2. [NotOwner] is the answer to exactly the owner-only calls
    ([transferOwnership], [addProvider], [removeProvider], [pause],
    [unpause], [setCooldownSeconds], [openNewBatch], [closeBatch]) sent by
    someone who is not the owner; the owner check comes before every other
    check of these functions, and no other function ever raises it. *)
Theorem NotOwner_exactly_owner_only s tx c :
  execute s tx c = Reverted NotOwner ↔
  owner_only c = true ∧ msg_sender tx ≠ owner s.
Proof.
  split.
  - destruct c; autorewrite with exec; cbn zeta; split_tests; intros _; split; done || lia.
  - intros [Hc Hne]. by apply owner_only_gate.
Qed.

(** X3. [NotProvider] is the answer to exactly the provider-only calls
    ([submitEncryptedData], [requestDecryptionForBatch]) sent by an address
    that is not registered; the provider check comes before the pause check,
    the cooldown and the batch checks. *)
Theorem NotProvider_exactly_provider_only s tx c :
  execute s tx c = Reverted NotProvider ↔
  provider_only c = true ∧ isProvider_at s (msg_sender tx) = false.
Proof.
  split.
  - destruct c; autorewrite with exec; cbn zeta; split_tests; intros _; by split.
  - intros [Hc Hp]. destruct c; try discriminate; autorewrite with exec; cbn zeta;
      by rewrite Hp.
Qed.

(** Only [addProvider(p)] makes [p] a provider. *)
Lemma isProvider_step s t p :
  adds_provider p t = false →
  isProvider_at s p = false → isProvider_at (step s t) p = false.
Proof.
  intros Hadd Hp. step_cases t; try done;
    unfold isProvider_at in *; cbn; rewrite mget_insert; case_decide; try done.
  subst. unfold adds_provider in Hadd; cbn in Hadd. lia.
Qed.

(** X4. Nobody is a provider at deployment, not even the owner, and an
    address stays unregistered through every run of transactions that holds
    no [addProvider] for it: its [submitEncryptedData] and
    [requestDecryptionForBatch] revert with [NotProvider]. *)
Theorem never_added_is_refused tx0 trace p :
  Forall (λ t, adds_provider p t = false) trace →
  isProvider_at (run (deploy tx0) trace) p = false ∧
  ∀ tx c, msg_sender tx = p → provider_only c = true →
    execute (run (deploy tx0) trace) tx c = Reverted NotProvider.
Proof.
  intros Hquiet.
  assert (isProvider_at (run (deploy tx0) trace) p = false) as Hp.
  { apply (run_preserves (λ s, isProvider_at s p = false)
             (λ t, adds_provider p t = false)); [|done..].
    intros s t ? ?. by apply isProvider_step. }
  split; [done|]. intros tx c <- Hc.
  destruct c; try discriminate; autorewrite with exec; cbn zeta; by rewrite Hp.
Qed.

(** X1. The provider registry.  Sent by the owner, [addProvider(p)] and
    [removeProvider(p)] always succeed; afterwards [p] is, respectively is
    not, a provider, and the status of every other address is as before.
    [ProviderAdded] / [ProviderRemoved] is emitted exactly when the status
    of [p] changes; a call that changes nothing leaves the whole storage as
    it was. *)
Theorem provider_registry s tx p :
  msg_sender tx = owner s →
  (∃ s', execute s tx (CallAddProvider p) =
           Success s' (if isProvider_at s p then [] else [ProviderAdded p]) ∧
         isProvider_at s' p = true ∧
         (isProvider_at s p = true → s' = s) ∧
         (∀ q, q ≠ p → isProvider_at s' q = isProvider_at s q)) ∧
  (∃ s', execute s tx (CallRemoveProvider p) =
           Success s' (if isProvider_at s p then [ProviderRemoved p] else []) ∧
         isProvider_at s' p = false ∧
         (isProvider_at s p = false → s' = s) ∧
         (∀ q, q ≠ p → isProvider_at s' q = isProvider_at s q)).
Proof.
  intros Hown. rewrite execute_addProvider, execute_removeProvider, Hown, Z.eqb_refl.
  cbn [negb]. destruct (isProvider_at s p) eqn:Hp; split.
  - exists s. by repeat split.
  - eexists. split; [done|]. unfold isProvider_at; cbn.
    split; [apply mget_insert_eq|]. split; [done|]. intros q Hq. by apply mget_insert_ne.
  - eexists. split; [done|]. unfold isProvider_at; cbn.
    split; [apply mget_insert_eq|]. split; [done|]. intros q Hq. by apply mget_insert_ne.
  - exists s. by repeat split.
Qed.

End AccessControl.

(** ** The pause switch *)

Section PauseScope.
Context {host : Host}.
Implicit Types (s : State) (tx : Tx).

(** X5. What the pause switch covers.  While the contract is paused, every
    [submitEncryptedData] and [requestDecryptionForBatch] of a registered
    provider reverts with [PausedContract], whatever the cooldown and the
    batch.  Every other function except [pause] and [unpause] themselves
    (ownership, provider registry, cooldown, opening and closing batches,
    and the decryption callback) does not read the flag: it gives the same
    receipt, over the same storage, paused or not. *)
Theorem pause_covers_provider_calls_only s tx c :
  (paused s = true → provider_only c = true →
   isProvider_at s (msg_sender tx) = true →
     execute s tx c = Reverted PausedContract) ∧
  (provider_only c = false → c ≠ CallPause → c ≠ CallUnpause →
   ∀ flag, execute (set_paused flag s) tx c =
           map_receipt (set_paused flag) (execute s tx c)).
Proof.
  split.
  - intros Hpaused Hc Hp.
    destruct c; try discriminate; autorewrite with exec; cbn zeta;
      by rewrite Hp, Hpaused.
  - intros Hc Hp Hu flag.
    destruct c; try discriminate; try done; autorewrite with exec; cbn zeta;
      unfold isProvider_at, batchClosed_at, decryptionContexts_at, encryptedData_at;
      cbn [owner isProvider cooldownSeconds currentBatchId batchClosed
           decryptionContexts encryptedData set_paused];
      by split_tests.
Qed.

End PauseScope.

(** ** Batch numbering *)

Section BatchNumbering.
Context {host : Host}.
Implicit Types (s : State) (tx : Tx) (t : Tx * Call) (trace : list (Tx * Call)).

Lemma batches_wf_deploy tx0 : batches_wf (deploy tx0).
Proof.
  split; [cbn; unfold MAX_UINT256; lia|]. split.
  - intros b _. by cbn.
  - intros b [v Hv]. cbn in Hv. by rewrite lookup_empty in Hv.
Qed.

Lemma batches_wf_step s t : batches_wf s → batches_wf (step s t).
Proof.
  intros (Hcur & Hclosed & Hdata).
  step_cases t; try done; unfold batches_wf, batchClosed_at in *;
    cbn [currentBatchId batchClosed encryptedData set_owner set_isProvider
         set_paused set_cooldownSeconds set_currentBatchId set_batchClosed
         set_lastSubmissionTime set_lastDecryptionRequestTime
         set_decryptionContexts set_encryptedData];
    try done.
  - (* openNewBatch *)
    split; [lia|]. split.
    + intros b H0 Hb. specialize (Hclosed b H0 Hb). lia.
    + intros b Hb. specialize (Hdata b Hb). lia.
  - (* closeBatch *)
    split; [done|]. split; [|done]. intros b H0 Hb.
    rewrite mget_insert in Hb. case_decide; [subst; lia | by apply Hclosed].
  - (* submitEncryptedData *)
    split; [done|]. split; [done|]. intros b Hb.
    rewrite lookup_insert in Hb. case_decide; [subst; lia | by apply Hdata].
Qed.

Lemma batches_wf_reachable s : reachable s → batches_wf s.
Proof.
  intros (tx0 & trace & ->).
  apply (run_preserves batches_wf (λ _, True)).
  - intros. by apply batches_wf_step.
  - by apply Forall_true.
  - apply batches_wf_deploy.
Qed.

(** The batch counter changes only in an [openNewBatch] of the owner, and
    then grows by one. *)
Lemma currentBatchId_step s t :
  currentBatchId (step s t) = currentBatchId s ∨
  (snd t = CallOpenNewBatch ∧ msg_sender (fst t) = owner s ∧
   currentBatchId s < MAX_UINT256 ∧
   currentBatchId (step s t) = currentBatchId s + 1).
Proof.
  step_cases t; try (by left). right. cbn. repeat split; lia.
Qed.

(** X6. In every reachable state the batch counter is a [uint256] and at
    least 1; only batches between 1 and the counter are closed, and only
    they hold a ciphertext: batch 0 and the batches not yet opened are open
    and empty. *)
Theorem reachable_batches_numbered s :
  reachable s →
  1 ≤ currentBatchId s ≤ MAX_UINT256 ∧
  (∀ b, 0 ≤ b → batchClosed_at s b = true → 1 ≤ b ≤ currentBatchId s) ∧
  (∀ b, is_Some (encryptedData s !! b) → 1 ≤ b ≤ currentBatchId s) ∧
  batchClosed_at s 0 = false ∧ encryptedData_at s 0 = 0 ∧
  (∀ b, currentBatchId s < b → batchClosed_at s b = false ∧ encryptedData_at s b = 0).
Proof.
  intros Hreach. destruct (batches_wf_reachable s Hreach) as (Hcur & Hclosed & Hdata).
  assert (∀ b, 0 ≤ b → ¬ (1 ≤ b ≤ currentBatchId s) →
               batchClosed_at s b = false ∧ encryptedData_at s b = 0) as Hout.
  { intros b H0 Hb. split.
    - destruct (batchClosed_at s b) eqn:E; [|done]. by apply Hclosed in E.
    - unfold encryptedData_at, mget.
      destruct (encryptedData s !! b) as [v|] eqn:E; [|done].
      exfalso. apply Hb, Hdata. by exists v. }
  split; [done|]. split; [done|]. split; [done|].
  destruct (Hout 0) as [? ?]; [lia..|].
  split; [done|]. split; [done|]. intros b Hb. apply Hout; lia.
Qed.

(** X7. Batch ids are never reused: the batch counter never decreases along
    a run, a transaction that changes it is an [openNewBatch] sent by the
    owner and adds exactly one, and at the largest [uint256] the increment
    reverts with [Panic 0x11] instead of wrapping around. *)
Theorem batch_counter_only_grows :
  (∀ s trace, currentBatchId s ≤ currentBatchId (run s trace)) ∧
  (∀ s tx c, currentBatchId (step s (tx, c)) ≠ currentBatchId s →
     c = CallOpenNewBatch ∧ msg_sender tx = owner s ∧
     currentBatchId (step s (tx, c)) = currentBatchId s + 1) ∧
  (∀ s tx, msg_sender tx = owner s → MAX_UINT256 ≤ currentBatchId s →
     execute s tx CallOpenNewBatch = Reverted (Panic 17)).
Proof.
  split; [|split].
  - intros s trace. revert s. induction trace as [|t trace IH]; intros s; [done|].
    change (run s (t :: trace)) with (run (step s t) trace).
    specialize (IH (step s t)).
    destruct (currentBatchId_step s t) as [Heq|(_ & _ & _ & Heq)]; lia.
  - intros s tx c Hne.
    destruct (currentBatchId_step s (tx, c)) as [?|(? & ? & _ & ?)]; done.
  - intros s tx Hown Hmax. rewrite execute_openNewBatch, Hown, Z.eqb_refl. cbn [negb].
    by replace (MAX_UINT256 <? currentBatchId s + 1) with true by lia.
Qed.

(** X8. Once the current batch is closed, no submission is accepted until a
    new batch is opened: after any run of transactions without an
    [openNewBatch], the current batch is the same and still closed, and
    every [submitEncryptedData] reverts (with [BatchClosedOrInvalid] when
    the caller passes the provider, pause and cooldown checks). *)
Theorem closed_current_batch_blocks_submissions s trace :
  batchClosed_at s (currentBatchId s) = true →
  Forall (λ t, opens_batch t = false) trace →
  currentBatchId (run s trace) = currentBatchId s ∧
  batchClosed_at (run s trace) (currentBatchId s) = true ∧
  ∀ tx v,
    (∃ e, execute (run s trace) tx (CallSubmitEncryptedData v) = Reverted e) ∧
    (isProvider_at (run s trace) (msg_sender tx) = true →
     paused (run s trace) = false →
     lastSubmissionTime_at (run s trace) (msg_sender tx) + cooldownSeconds (run s trace)
       ≤ block_timestamp tx →
     block_timestamp tx ≤ MAX_UINT256 →
     execute (run s trace) tx (CallSubmitEncryptedData v) = Reverted BatchClosedOrInvalid).
Proof.
  intros Hclosed Hquiet.
  assert (currentBatchId (run s trace) = currentBatchId s) as Hcur.
  { apply (run_preserves (λ s', currentBatchId s' = currentBatchId s)
             (λ t, opens_batch t = false)); [|done..].
    intros s' t Hno Hs'.
    destruct (currentBatchId_step s' t) as [->|(Hopen & _)]; [done|].
    unfold opens_batch in Hno. by rewrite Hopen in Hno. }
  pose proof (batchClosed_run s trace _ Hclosed) as Hstill.
  split; [done|]. split; [done|]. intros tx v.
  rewrite execute_submitEncryptedData. cbn zeta. rewrite Hcur, Hstill. split.
  - split_tests; by eexists.
  - intros Hp Hn Hready Hmax. rewrite Hp, Hn. cbn [negb].
    replace (MAX_UINT256 <? _) with false by lia.
    by replace (block_timestamp tx <? _) with false by lia.
Qed.

(** X9. A batch starts open and empty: in a reachable state with the counter
    below the largest [uint256], [openNewBatch] sent by the owner succeeds,
    makes the next id the current batch and emits [BatchOpened]; that batch
    is not closed and holds no ciphertext, and nothing else in the storage
    changes. *)
Theorem new_batch_starts_open s tx :
  reachable s → msg_sender tx = owner s → currentBatchId s < MAX_UINT256 →
  let next := currentBatchId s + 1 in
  execute s tx CallOpenNewBatch = Success (set_currentBatchId next s) [BatchOpened next] ∧
  batchClosed_at (set_currentBatchId next s) next = false ∧
  encryptedData (set_currentBatchId next s) !! next = None.
Proof.
  intros Hreach Hown Hlt next.
  destruct (batches_wf_reachable s Hreach) as (Hcur & Hclosed & Hdata).
  rewrite execute_openNewBatch, Hown, Z.eqb_refl. cbn [negb].
  replace (MAX_UINT256 <? currentBatchId s + 1) with false by lia.
  split; [done|]. split.
  - change (batchClosed_at (set_currentBatchId next s) next) with (batchClosed_at s next).
    destruct (batchClosed_at s next) eqn:E; [|done].
    apply Hclosed in E; unfold next in *; lia.
  - cbn. destruct (encryptedData s !! next) as [v|] eqn:E; [|done].
    assert (1 ≤ next ≤ currentBatchId s) by (apply Hdata; by exists v).
    unfold next in *. lia.
Qed.

End BatchNumbering.

(** ** The life of a decryption request *)

Section RequestLife.
Context {host : Host}.
Implicit Types (s : State) (tx : Tx) (t : Tx * Call) (trace : list (Tx * Call)).

(** The context stored under [r] is written only by a request to which the
    oracle assigns [r] and by a callback for [r]. *)
Lemma context_step s t r :
  assigns_request r t = false → finalizes r t = false →
  decryptionContexts (step s t) !! r = decryptionContexts s !! r.
Proof.
  intros Hassign Hfinal. step_cases t; try done; cbn; apply lookup_insert_ne; intros ->.
  - unfold assigns_request in Hassign; cbn in Hassign.
    match goal with H : oracle_reply _ = Some _ |- _ => rewrite H in Hassign end. lia.
  - unfold finalizes in Hfinal; cbn in Hfinal. lia.
Qed.

(** No transaction removes a stored context; unless the oracle hands out the
    id again, its batch id and state hash stay and [processed] is not
    cleared. *)
Lemma context_kept_step s t r ctx :
  decryptionContexts s !! r = Some ctx →
  ∃ ctx', decryptionContexts (step s t) !! r = Some ctx' ∧
    (assigns_request r t = false →
     batchId ctx' = batchId ctx ∧ stateHash ctx' = stateHash ctx ∧
     (processed ctx = true → processed ctx' = true)).
Proof.
  intros Hl. step_cases t; try (by exists ctx); cbn; rewrite lookup_insert; case_decide;
    try (by exists ctx); subst; eexists; (split; [done|]); intros Hassign; cbn.
  - unfold assigns_request in Hassign; cbn in Hassign.
    match goal with H : oracle_reply _ = Some _ |- _ => rewrite H in Hassign end. lia.
  - unfold decryptionContexts_at. by rewrite (mget_lookup _ _ _ _ Hl).
Qed.

(** X17. Decryption requests are never deleted: a context stored under a
    request id is still stored after every run of transactions, and if the
    oracle does not hand out the id again in that run, its batch id and its
    state hash are the same and a processed request stays processed. *)
Theorem request_contexts_persist s trace r ctx :
  decryptionContexts s !! r = Some ctx →
  ∃ ctx', decryptionContexts (run s trace) !! r = Some ctx' ∧
    (Forall (λ t, assigns_request r t = false) trace →
     batchId ctx' = batchId ctx ∧ stateHash ctx' = stateHash ctx ∧
     (processed ctx = true → processed ctx' = true)).
Proof.
  revert s ctx. induction trace as [|t trace IH]; intros s ctx Hl.
  - exists ctx. by repeat split.
  - change (run s (t :: trace)) with (run (step s t) trace).
    destruct (context_kept_step s t r ctx Hl) as (ctx1 & Hl1 & Hsame1).
    destruct (IH _ _ Hl1) as (ctx' & Hl' & Hsame').
    exists ctx'. split; [done|]. intros Hquiet. inversion Hquiet; subst.
    destruct Hsame1 as (Hb1 & Hh1 & Hp1); [done|].
    destruct Hsame' as (Hb' & Hh' & Hp'); [done|].
    split; [congruence|]. split; [congruence|]. auto.
Qed.

(** X10. A pending request can always be finalized.  After a successful
    [requestDecryptionForBatch(b)] to which the oracle assigned [r], and
    after any run of transactions that neither finalizes [r] nor has the
    oracle hand out [r] again (submissions, new and closed batches, pausing,
    a change of owner or of providers), the callback for [r] never reverts
    with [ReplayAttempt] or [StateMismatch]: it succeeds exactly when the
    signatures verify and the cleartext decodes, marks the request
    processed and emits [DecryptionCompleted(r, b, value)]. *)
Theorem pending_request_can_be_finalized s tx b s1 evs r trace :
  execute s tx (CallRequestDecryptionForBatch b) = Success s1 evs →
  oracle_reply tx = Some r →
  Forall (λ t, assigns_request r t = false ∧ finalizes r t = false) trace →
  let ctx := {| batchId := b;
                stateHash := _hashCiphertexts [FHE_toBytes32 (encryptedData_at s b)];
                processed := false |} in
  decryptionContexts (run s1 trace) !! r = Some ctx ∧
  ∀ tx' ct pf,
    execute (run s1 trace) tx' (CallMyCallback r ct pf) =
    if negb (FHE_verify r ct pf) then Reverted InvalidProof
    else match decode_uint32 ct with
         | None => Reverted AbiDecodeReverted
         | Some w =>
             Success
               (set_decryptionContexts r
                  {| batchId := b; stateHash := stateHash ctx; processed := true |}
                  (run s1 trace))
               [DecryptionCompleted r b w]
         end.
Proof.
  intros Hex Hreply Hquiet ctx.
  rewrite execute_requestDecryptionForBatch in Hex. cbn zeta in Hex. rewrite Hreply in Hex.
  assert (batchClosed_at s b = true ∧
          s1 = set_decryptionContexts r ctx
                 (set_lastDecryptionRequestTime (msg_sender tx) (block_timestamp tx) s))
    as [Hclosed ->].
  { revert Hex. split_tests. intros [= <- _]. split; [|done].
    by destruct (batchClosed_at s b). }
  set (s1 := set_decryptionContexts r ctx _) in *.
  assert (decryptionContexts (run s1 trace) !! r = Some ctx) as Hctx.
  { apply (run_preserves (λ s', decryptionContexts s' !! r = Some ctx)
             (λ t, assigns_request r t = false ∧ finalizes r t = false)); [|done|].
    - intros s' t [? ?] Hs'. by rewrite context_step.
    - cbn. apply lookup_insert_eq. }
  assert (encryptedData_at (run s1 trace) b = encryptedData_at s b) as Hdata.
  { unfold encryptedData_at, mget.
    rewrite (closed_slot_run s1 trace b) by done. done. }
  split; [done|]. intros tx' ct pf.
  rewrite execute_myCallback. cbn zeta.
  unfold decryptionContexts_at. rewrite (mget_lookup _ _ _ _ Hctx).
  cbn [processed batchId stateHash ctx]. rewrite Hdata, Z.eqb_refl. by cbn [negb].
Qed.

End RequestLife.

(** ** The callback and its cleartext *)

Lemma be_fold_nonneg (bs : list byte) (acc : Z) :
  0 ≤ acc → 0 ≤ fold_left (λ acc b, acc * 256 + Z_of_byte b) bs acc.
Proof.
  revert acc. induction bs as [|b bs IH]; intros acc Hacc; [done|].
  cbn. apply IH. unfold Z_of_byte. lia.
Qed.

Lemma be_value_nonneg (bs : list byte) : 0 ≤ be_value bs.
Proof. by apply be_fold_nonneg. Qed.

Lemma decode_uint32_range (data : list byte) (w : Z) :
  decode_uint32 data = Some w →
  0 ≤ w < 2 ^ 32 ∧ (32 ≤ length data)%nat ∧ w = be_value (firstn 32 data).
Proof.
  unfold decode_uint32.
  destruct (length data <? 32)%nat eqn:Hlen; [done|].
  apply Nat.ltb_ge in Hlen. cbn zeta.
  destruct (2 ^ 32 <=? be_value (take 32 data)) eqn:Hw; [done|].
  intros [= <-]. pose proof (be_value_nonneg (take 32 data)). repeat split; lia.
Qed.

Lemma decode_uint32_word (w : Z) (extra : list byte) :
  0 ≤ w < 2 ^ 256 →
  decode_uint32 (abi_word w ++ extra) = if 2 ^ 32 <=? w then None else Some w.
Proof.
  intros Hw. unfold decode_uint32, abi_word.
  rewrite length_app, length_be_bytes.
  replace (32 + length extra <? 32)%nat with false by (symmetry; apply Nat.ltb_ge; lia).
  rewrite take_app_length' by (by rewrite length_be_bytes).
  rewrite be_value_be_bytes by lia.
  by rewrite Z.mod_small by (change (256 ^ Z.of_nat 32) with (2 ^ 256); lia).
Qed.

(** X12. Decoding the cleartext ([abi.decode(cleartexts, (uint32))]).  A
    32-byte big-endian word below [2^32] decodes to its value, and bytes
    after the first word are ignored; fewer than 32 bytes do not decode; a
    first word of [2^32] or more does not decode; and whatever decodes is a
    [uint32], the value of the first 32 bytes. *)
Theorem decode_uint32_cases :
  (∀ w extra, 0 ≤ w < 2 ^ 32 → decode_uint32 (abi_word w ++ extra) = Some w) ∧
  (∀ data, (length data < 32)%nat → decode_uint32 data = None) ∧
  (∀ w extra, 2 ^ 32 ≤ w < 2 ^ 256 → decode_uint32 (abi_word w ++ extra) = None) ∧
  (∀ data w, decode_uint32 data = Some w →
     0 ≤ w < 2 ^ 32 ∧ (32 ≤ length data)%nat ∧ w = be_value (firstn 32 data)).
Proof.
  split; [|split; [|split]].
  - intros w extra Hw. rewrite decode_uint32_word by lia.
    by replace (2 ^ 32 <=? w) with false by lia.
  - intros data Hlen. unfold decode_uint32.
    by replace (length data <? 32)%nat with true by (symmetry; by apply Nat.ltb_lt).
  - intros w extra Hw. rewrite decode_uint32_word by lia.
    by replace (2 ^ 32 <=? w) with true by lia.
  - apply decode_uint32_range.
Qed.

(** ** The preimage of the state hash *)

Lemma abi_word_inj (w w' : Z) :
  0 ≤ w < 2 ^ 256 → 0 ≤ w' < 2 ^ 256 → abi_word w = abi_word w' → w = w'.
Proof.
  intros Hw Hw' Heq. apply (f_equal be_value) in Heq. unfold abi_word in Heq.
  rewrite !be_value_be_bytes in Heq by lia.
  change (256 ^ Z.of_nat 32) with (2 ^ 256) in Heq.
  by rewrite !Z.mod_small in Heq by lia.
Qed.

Lemma abi_words_inj (ws ws' : list Z) :
  words ws → words ws' →
  concat (map abi_word ws) = concat (map abi_word ws') → ws = ws'.
Proof.
  intros Hws. revert ws'. induction Hws as [|w ws Hw Hws IH]; intros ws' Hws' Heq.
  - destruct ws' as [|w' ws']; [done|]. apply (f_equal length) in Heq.
    cbn [map concat] in Heq. rewrite length_app in Heq. unfold abi_word in Heq.
    rewrite length_be_bytes in Heq. cbn [length] in Heq. lia.
  - destruct Hws' as [|w' ws' Hw' Hws'].
    + apply (f_equal length) in Heq. cbn [map concat] in Heq.
      rewrite length_app in Heq. unfold abi_word in Heq.
      rewrite length_be_bytes in Heq. cbn [length] in Heq. lia.
    + cbn [map concat] in Heq.
      apply app_inj_1 in Heq as [Hhead Htail];
        [|unfold abi_word; by rewrite !length_be_bytes].
      f_equal; [by apply abi_word_inj | by apply IH].
Qed.

(** X13. The bytes that [_hashCiphertexts] feeds to [keccak256] determine
    both the handles and the contract address: the ABI encoding of a
    [bytes32] array together with an address is injective, so two different
    handle arrays, or the same array under two different contract addresses,
    are never hashed from the same preimage. *)
Theorem abi_encode_injective (cts cts' : list Z) (a a' : Z) :
  words cts → words cts' → 0 ≤ a < 2 ^ 256 → 0 ≤ a' < 2 ^ 256 →
  abi_encode cts a = abi_encode cts' a' → cts = cts' ∧ a = a'.
Proof.
  intros Hcts Hcts' Ha Ha' Heq. unfold abi_encode in Heq.
  apply app_inj_1 in Heq as [_ Heq]; [|done].
  apply app_inj_1 in Heq as [Haddr Heq]; [|unfold abi_word; by rewrite !length_be_bytes].
  apply app_inj_1 in Heq as [_ Heq]; [|unfold abi_word; by rewrite !length_be_bytes].
  split; [by apply abi_words_inj | by apply abi_word_inj].
Qed.

Section CallbackFrame.
Context {host : Host}.
Implicit Types (s : State) (tx : Tx).

(** X11. The callback is open to every caller and does one thing.  Its
    receipt does not depend on the sender or the block time.  When it
    succeeds, the signatures were verified, the completion event carries the
    stored batch id and a decoded value that is a [uint32], and the only
    change of the storage is the [processed] flag of that request: its
    batch id and state hash, every other request and every other variable
    are as before. *)
Theorem callback_open_to_anyone s r ct pf :
  (∀ tx tx', execute s tx (CallMyCallback r ct pf) = execute s tx' (CallMyCallback r ct pf)) ∧
  (∀ tx s' evs,
     execute s tx (CallMyCallback r ct pf) = Success s' evs →
     let ctx := decryptionContexts_at s r in
     ∃ w, decode_uint32 ct = Some w ∧ 0 ≤ w < 2 ^ 32 ∧
          FHE_verify r ct pf = true ∧
          evs = [DecryptionCompleted r (batchId ctx) w] ∧
          s' = set_decryptionContexts r
                 {| batchId := batchId ctx; stateHash := stateHash ctx; processed := true |} s ∧
          (∀ r', r' ≠ r → decryptionContexts s' !! r' = decryptionContexts s !! r')).
Proof.
  split.
  - intros tx tx'. by rewrite !execute_myCallback.
  - intros tx s' evs. rewrite execute_myCallback. cbn zeta.
    split_tests. intros [= <- <-]. eexists. split; [done|].
    split; [by eapply decode_uint32_range|]. split; [done|]. split; [done|].
    split; [done|]. intros r' Hr'. cbn. by apply lookup_insert_ne.
Qed.

End CallbackFrame.

(** ** Events and throttle clocks *)

Section Bookkeeping.
Context {host : Host}.
Implicit Types (s : State) (tx : Tx).


(** X16. The two throttle clocks are kept per principal and per operation:
    a transaction changes the last-submission time of [a] only if it is a
    successful [submitEncryptedData] sent by [a], and the
    last-decryption-request time of [a] only if it is a successful
    [requestDecryptionForBatch] sent by [a]; the new value is the block
    time. *)
Theorem throttle_clocks_per_principal s tx c a :
  (lastSubmissionTime_at (step s (tx, c)) a ≠ lastSubmissionTime_at s a →
     msg_sender tx = a ∧ (∃ v, c = CallSubmitEncryptedData v) ∧
     lastSubmissionTime_at (step s (tx, c)) a = block_timestamp tx) ∧
  (lastDecryptionRequestTime_at (step s (tx, c)) a ≠ lastDecryptionRequestTime_at s a →
     msg_sender tx = a ∧ (∃ b, c = CallRequestDecryptionForBatch b) ∧
     lastDecryptionRequestTime_at (step s (tx, c)) a = block_timestamp tx).
Proof.
  split.
  - call_cases c; try done.
    unfold lastSubmissionTime_at; cbn. rewrite mget_insert. case_decide; [|done].
    intros _. split; [done|]. split; [by eexists | done].
  - call_cases c; try done.
    unfold lastDecryptionRequestTime_at; cbn. rewrite mget_insert. case_decide; [|done].
    intros _. split; [done|]. split; [by eexists | done].
Qed.

(** X15. [setCooldownSeconds] sent by the owner accepts every value, emits
    the old and the new cooldown, and the new cooldown counts at once, also
    for waits already running: afterwards a provider (contract not paused)
    is refused with [CooldownActive] exactly when the block time is below
    its last submission time, respectively its last request time, plus the
    new cooldown (the sum fitting in a [uint256]).  With a cooldown of zero
    a call at or after the caller's last one is not throttled. *)
Theorem setCooldownSeconds_counts_at_once s tx n :
  msg_sender tx = owner s →
  let s' := set_cooldownSeconds n s in
  execute s tx (CallSetCooldownSeconds n) =
    Success s' [CooldownSecondsSet (cooldownSeconds s) n] ∧
  (∀ tx' v, isProvider_at s (msg_sender tx') = true → paused s = false →
     (execute s' tx' (CallSubmitEncryptedData v) = Reverted CooldownActive ↔
      lastSubmissionTime_at s (msg_sender tx') + n ≤ MAX_UINT256 ∧
      block_timestamp tx' < lastSubmissionTime_at s (msg_sender tx') + n)) ∧
  (∀ tx' b, isProvider_at s (msg_sender tx') = true → paused s = false →
     (execute s' tx' (CallRequestDecryptionForBatch b) = Reverted CooldownActive ↔
      lastDecryptionRequestTime_at s (msg_sender tx') + n ≤ MAX_UINT256 ∧
      block_timestamp tx' < lastDecryptionRequestTime_at s (msg_sender tx') + n)).
Proof.
  intros Hown s'. rewrite execute_setCooldownSeconds, Hown, Z.eqb_refl. cbn [negb].
  split; [done|]. split.
  - intros tx' v Hp Hn. rewrite execute_submitEncryptedData. cbn zeta.
    change (isProvider_at s' (msg_sender tx')) with (isProvider_at s (msg_sender tx')).
    change (lastSubmissionTime_at s' (msg_sender tx'))
      with (lastSubmissionTime_at s (msg_sender tx')).
    change (paused s') with (paused s). change (cooldownSeconds s') with n.
    rewrite Hp, Hn. cbn [negb].
    destruct (MAX_UINT256 <? _) eqn:E1; [split; [done|lia]|].
    destruct (block_timestamp tx' <? _) eqn:E2; [split; [lia|done]|].
    split; [by split_tests | lia].
  - intros tx' b Hp Hn. rewrite execute_requestDecryptionForBatch. cbn zeta.
    change (isProvider_at s' (msg_sender tx')) with (isProvider_at s (msg_sender tx')).
    change (lastDecryptionRequestTime_at s' (msg_sender tx'))
      with (lastDecryptionRequestTime_at s (msg_sender tx')).
    change (paused s') with (paused s). change (cooldownSeconds s') with n.
    rewrite Hp, Hn. cbn [negb].
    destruct (MAX_UINT256 <? _) eqn:E1; [split; [done|lia]|].
    destruct (block_timestamp tx' <? _) eqn:E2; [split; [lia|done]|].
    split; [by split_tests | lia].
Qed.

End Bookkeeping.

Section DeadCheck.
Context {host : Host}.

(** X18. In a reachable state the state-hash check never rejects a stored
    request: a callback that reverts with [StateMismatch] was made for a
    request id under which nothing is stored.  (A stored request names a
    batch that was closed when it was requested, and a closed batch is never
    written again.) *)
Theorem StateMismatch_only_for_unknown_ids s tx r ct pf :
  reachable s →
  execute s tx (CallMyCallback r ct pf) = Reverted StateMismatch →
  decryptionContexts s !! r = None.
Proof.
  intros Hreach. destruct (requests_bound_reachable s Hreach) as [_ Hinv].
  rewrite execute_myCallback. cbn zeta. unfold decryptionContexts_at.
  destruct (decryptionContexts s !! r) as [ctx|] eqn:Hl; [|done].
  rewrite (mget_lookup _ _ _ _ Hl). destruct (Hinv r ctx Hl) as [_ Hh].
  rewrite <- Hh, Z.eqb_refl. cbn [negb]. by split_tests.
Qed.

End DeadCheck.

(** ** The further properties at work on the concrete run *)

Lemma state_finalized_reachable : @reachable sample_host state_finalized.
Proof.
  exists (tx_at 1 900),
    (scenario_requested ++ [ (tx_at 9 1400, CallMyCallback 5 cleartext42 some_proof) ]).
  unfold state_finalized, state_requested, state_deployed. by rewrite run_snoc.
Qed.

Lemma word_777 : words [777].
Proof. repeat constructor; by vm_compute. Qed.

Lemma word_778 : words [778].
Proof. repeat constructor; by vm_compute. Qed.

(** The owner registers provider 2 in the fresh contract. *)
Lemma provider_registry_witness :
  msg_sender (tx_at 1 1000) = owner state_deployed ∧
  ∃ s', @execute sample_host state_deployed (tx_at 1 1000) (CallAddProvider 2)
          = Success s' [ProviderAdded 2] ∧ isProvider_at s' 2 = true.
Proof.
  assert (msg_sender (tx_at 1 1000) = owner state_deployed) as Hown by reflexivity.
  split; [exact Hown|].
  destruct (@provider_registry sample_host state_deployed (tx_at 1 1000) 2 Hown)
    as [(s' & Hex & Hp & _) _].
  exists s'. split; [exact Hex | exact Hp].
Defined.

(** Address 3 is never registered in the concrete run. *)
Lemma never_added_is_refused_witness :
  Forall (λ t, adds_provider 3 t = false) scenario_requested ∧
  @execute sample_host state_requested (tx_at 3 2000) (CallSubmitEncryptedData 1)
    = Reverted NotProvider.
Proof.
  assert (Forall (λ t, adds_provider 3 t = false) scenario_requested) as Hq
    by (repeat constructor).
  split; [exact Hq|].
  exact (proj2 (@never_added_is_refused sample_host (tx_at 1 900) scenario_requested 3 Hq)
           (tx_at 3 2000) (CallSubmitEncryptedData 1) eq_refl eq_refl).
Defined.

Lemma reachable_batches_numbered_witness :
  @reachable sample_host state_requested ∧
  1 ≤ currentBatchId state_requested ≤ MAX_UINT256 ∧
  batchClosed_at state_requested 2 = false.
Proof.
  split; [exact state_requested_reachable|].
  destruct (@reachable_batches_numbered sample_host state_requested state_requested_reachable)
    as (Hcur & _ & _ & _ & _ & Hout).
  split; [exact Hcur|]. apply Hout. by vm_compute.
Defined.

(** Batch 1 is current and closed: a submission a day later is refused. *)
Lemma closed_current_batch_blocks_submissions_witness :
  batchClosed_at state_closed (currentBatchId state_closed) = true ∧
  @execute sample_host (@run sample_host state_closed [ (tx_at 1 1500, CallPause);
                                                         (tx_at 1 1600, CallUnpause) ])
    (tx_at 2 90000) (CallSubmitEncryptedData 888) = Reverted BatchClosedOrInvalid.
Proof.
  assert (batchClosed_at state_closed (currentBatchId state_closed) = true) as Hc
    by (vm_compute; reflexivity).
  split; [exact Hc|].
  destruct (@closed_current_batch_blocks_submissions sample_host state_closed
              [ (tx_at 1 1500, CallPause); (tx_at 1 1600, CallUnpause) ] Hc
              ltac:(repeat constructor)) as (_ & _ & H).
  apply (proj2 (H (tx_at 2 90000) 888)); by vm_compute.
Defined.

Lemma new_batch_starts_open_witness :
  @reachable sample_host state_requested ∧
  msg_sender (tx_at 1 1500) = owner state_requested ∧
  currentBatchId state_requested < MAX_UINT256 ∧
  @execute sample_host state_requested (tx_at 1 1500) CallOpenNewBatch
    = Success (set_currentBatchId 2 state_requested) [BatchOpened 2].
Proof.
  assert (msg_sender (tx_at 1 1500) = owner state_requested) as Hown by reflexivity.
  assert (currentBatchId state_requested < MAX_UINT256) as Hlt by (by vm_compute).
  split; [exact state_requested_reachable|]. split; [exact Hown|]. split; [exact Hlt|].
  exact (proj1 (@new_batch_starts_open sample_host state_requested (tx_at 1 1500)
                  state_requested_reachable Hown Hlt)).
Defined.

(** Request 5 of the concrete run is finalized after the contract was paused
    and the requesting provider removed. *)
Lemma pending_request_can_be_finalized_witness :
  @execute sample_host state_closed (tx_oracle 2 1300 5) (CallRequestDecryptionForBatch 1)
    = Success state_requested [DecryptionRequested 5 1] ∧
  ∃ s', @execute sample_host
          (@run sample_host state_requested [ (tx_at 1 1500, CallPause);
                                               (tx_at 1 1600, CallRemoveProvider 2) ])
          (tx_at 9 1700) (CallMyCallback 5 cleartext42 some_proof)
        = Success s' [DecryptionCompleted 5 1 42].
Proof.
  assert (@execute sample_host state_closed (tx_oracle 2 1300 5)
            (CallRequestDecryptionForBatch 1)
          = Success state_requested [DecryptionRequested 5 1]) as Hex
    by (vm_compute; reflexivity).
  split; [exact Hex|].
  destruct (@pending_request_can_be_finalized sample_host _ _ _ _ _ 5
              [ (tx_at 1 1500, CallPause); (tx_at 1 1600, CallRemoveProvider 2) ]
              Hex eq_refl ltac:(repeat constructor)) as [_ H].
  eexists. rewrite (H (tx_at 9 1700) cleartext42 some_proof). reflexivity.
Defined.

Lemma abi_encode_injective_witness :
  words [777] ∧ words [778] ∧
  abi_encode [777] 12648430 ≠ abi_encode [778] 12648430.
Proof.
  split; [exact word_777|]. split; [exact word_778|]. intros Heq.
  destruct (abi_encode_injective [777] [778] 12648430 12648430 word_777 word_778
              ltac:(by vm_compute) ltac:(by vm_compute) Heq) as [Hcts _].
  discriminate Hcts.
Defined.


(** The owner raises the cooldown to an hour after provider 2 submitted at
    1100: a submission at 1300 is now throttled. *)
Lemma setCooldownSeconds_counts_at_once_witness :
  msg_sender (tx_at 1 1250) = owner state_closed ∧
  @execute sample_host (set_cooldownSeconds 3600 state_closed) (tx_at 2 1300)
    (CallSubmitEncryptedData 888) = Reverted CooldownActive.
Proof.
  assert (msg_sender (tx_at 1 1250) = owner state_closed) as Hown by reflexivity.
  split; [exact Hown|].
  destruct (@setCooldownSeconds_counts_at_once sample_host state_closed (tx_at 1 1250) 3600
              Hown) as (_ & H & _).
  apply (H (tx_at 2 1300) 888); [by vm_compute.. |]. by vm_compute.
Defined.

Lemma request_contexts_persist_witness :
  decryptionContexts state_requested !! 5 =
    Some {| batchId := 1; stateHash := 547427; processed := false |} ∧
  ∃ ctx', decryptionContexts
            (@run sample_host state_requested
               [ (tx_at 1 1500, CallOpenNewBatch);
                 (tx_at 9 1600, CallMyCallback 5 cleartext42 some_proof) ]) !! 5
          = Some ctx' ∧ batchId ctx' = 1 ∧ stateHash ctx' = 547427.
Proof.
  assert (decryptionContexts state_requested !! 5 =
            Some {| batchId := 1; stateHash := 547427; processed := false |}) as Hl
    by (vm_compute; reflexivity).
  split; [exact Hl|].
  destruct (@request_contexts_persist sample_host state_requested
              [ (tx_at 1 1500, CallOpenNewBatch);
                (tx_at 9 1600, CallMyCallback 5 cleartext42 some_proof) ] 5 _ Hl)
    as (ctx' & Hl' & Hsame).
  exists ctx'. split; [exact Hl'|].
  destruct (Hsame ltac:(repeat constructor)) as (Hb & Hh & _). split; [exact Hb | exact Hh].
Defined.

Lemma StateMismatch_only_for_unknown_ids_witness :
  @reachable sample_host state_finalized ∧
  @execute sample_host state_finalized (tx_at 9 1500)
    (CallMyCallback 6 cleartext42 some_proof) = Reverted StateMismatch ∧
  decryptionContexts state_finalized !! 6 = None.
Proof.
  assert (@execute sample_host state_finalized (tx_at 9 1500)
            (CallMyCallback 6 cleartext42 some_proof) = Reverted StateMismatch) as Hex
    by (vm_compute; reflexivity).
  split; [exact state_finalized_reachable|]. split; [exact Hex|].
  exact (@StateMismatch_only_for_unknown_ids sample_host _ _ _ _ _
           state_finalized_reachable Hex).
Defined.

(** Paused, the provider is refused; the callback for request 5 is not. *)
Lemma pause_covers_provider_calls_only_witness :
  @execute sample_host (set_paused true state_requested) (tx_at 2 5000)
    (CallSubmitEncryptedData 888) = Reverted PausedContract ∧
  @execute sample_host (set_paused true state_requested) (tx_at 9 1400)
    (CallMyCallback 5 cleartext42 some_proof)
  = Success (set_paused true state_finalized) [DecryptionCompleted 5 1 42].
Proof.
  split.
  - apply (proj1 (@pause_covers_provider_calls_only sample_host
                    (set_paused true state_requested) (tx_at 2 5000)
                    (CallSubmitEncryptedData 888))); by vm_compute.
  - rewrite (proj2 (@pause_covers_provider_calls_only sample_host state_requested
                      (tx_at 9 1400) (CallMyCallback 5 cleartext42 some_proof))
               eq_refl ltac:(done) ltac:(done) true).
    vm_compute. reflexivity.
Defined.

(** Opening a batch in the concrete run moves the counter from 1 to 2. *)
Lemma batch_counter_only_grows_witness :
  currentBatchId state_requested
    ≤ currentBatchId (@run sample_host state_requested [ (tx_at 1 1500, CallOpenNewBatch) ]) ∧
  currentBatchId (@step sample_host state_requested (tx_at 1 1500, CallOpenNewBatch))
    = currentBatchId state_requested + 1.
Proof.
  destruct (@batch_counter_only_grows sample_host) as (Hmono & Hstep & _).
  split; [apply Hmono|]. apply Hstep. by vm_compute.
Defined.

(** The callback of the concrete run, sent by two different callers. *)
Lemma callback_open_to_anyone_witness :
  @execute sample_host state_requested (tx_at 9 1400) (CallMyCallback 5 cleartext42 some_proof)
    = @execute sample_host state_requested (tx_at 2 7000)
        (CallMyCallback 5 cleartext42 some_proof) ∧
  ∃ w, decode_uint32 cleartext42 = Some w ∧ 0 ≤ w < 2 ^ 32.
Proof.
  destruct (@callback_open_to_anyone sample_host state_requested 5 cleartext42 some_proof)
    as [Hany Hok].
  split; [apply Hany|].
  destruct (Hok (tx_at 9 1400) state_finalized [DecryptionCompleted 5 1 42]
              ltac:(vm_compute; reflexivity)) as (w & Hw & Hrange & _).
  exists w. split; [exact Hw | exact Hrange].
Defined.

(** The word 42 followed by one more byte decodes to 42; 31 bytes do not
    decode. *)
Lemma decode_uint32_cases_witness :
  decode_uint32 (abi_word 42 ++ [xff]) = Some 42 ∧
  decode_uint32 (be_bytes 31 42) = None.
Proof.
  destruct decode_uint32_cases as (Hword & Hshort & _).
  split; [apply Hword; by vm_compute | apply Hshort; by vm_compute].
Defined.

(** The submission of the concrete run sets the clock of provider 2. *)
Lemma throttle_clocks_per_principal_witness :
  lastSubmissionTime_at
    (@step sample_host state_provider (tx_at 2 1100, CallSubmitEncryptedData 777)) 2
    ≠ lastSubmissionTime_at state_provider 2 ∧
  lastSubmissionTime_at
    (@step sample_host state_provider (tx_at 2 1100, CallSubmitEncryptedData 777)) 2
    = 1100.
Proof.
  assert (lastSubmissionTime_at
            (@step sample_host state_provider (tx_at 2 1100, CallSubmitEncryptedData 777)) 2
          ≠ lastSubmissionTime_at state_provider 2) as Hne by (by vm_compute).
  split; [exact Hne|].
  exact (proj2 (proj2 (proj1 (@throttle_clocks_per_principal sample_host state_provider
                                (tx_at 2 1100) (CallSubmitEncryptedData 777) 2) Hne))).
Defined.
